(** * iOS Simulator MCP server: a shallow embedding of
      [ios_simulator_mcp_server.py] and the properties of its JSON-RPC engine,
      tool dispatcher, command runner and transport loop.

    Python values are modelled by the inductive [value]; a Python [str] is a
    [string] holding its UTF-8 bytes (a lone surrogate, which a [str] can
    hold and UTF-8 cannot, as the three bytes of its code point).  A coroutine of the server is a tree of
    type [prog]: it returns, raises, spawns an external process and waits for
    its outcome, or prints a line.  What the server takes from the Python
    runtime ([json.loads], [json.dumps], [str.strip], the [repr] of
    containers, the decoding of the output of a process and the encoding of
    the standard output) is the content of the class [PyRuntime]. *)

From Stdlib Require Import String Ascii ZArith List Bool Lia DecimalString.
From ExtLib Require Import Structures.Monad Structures.MonadExc.
Import ListNotations.
Import MonadNotation.

Set Warnings "-register-all".

Local Open Scope Z_scope.
Local Open Scope list_scope.
Local Open Scope string_scope.
Local Open Scope monad_scope.

(** ** Python values *)

(** The values that flow through the server: what [json.loads] builds and
    what the server itself builds with literals.  A [float] is carried as its
    [repr] text, which is all the server can observe of it. A [dict] keeps
    its entries in insertion order; every key is a [str]. *)
Inductive value : Type :=
| VNone
| VBool (b : bool)
| VInt (n : Z)
| VFloat (repr : string)
| VStr (s : string)
| VList (items : list value)
| VDict (entries : list (string * value)).

Definition dict : Type := list (string * value).

Fixpoint dict_lookup (key : string) (d : dict) : option value :=
  match d with
  | [] => None
  | (k, v) :: rest => if String.eqb k key then Some v else dict_lookup key rest
  end.

Definition has_key (key : string) (d : dict) : bool :=
  match dict_lookup key d with Some _ => true | None => false end.

(** [d.get(key, default)] on a dict. *)
Definition dict_get (key : string) (d : dict) (default : value) : value :=
  match dict_lookup key d with Some v => v | None => default end.

(** The name [type(v).__name__] that CPython puts in its messages. *)
Definition type_name (v : value) : string :=
  match v with
  | VNone => "NoneType"
  | VBool _ => "bool"
  | VInt _ => "int"
  | VFloat _ => "float"
  | VStr _ => "str"
  | VList _ => "list"
  | VDict _ => "dict"
  end.

(** [v == s] for a string literal [s]. *)
Definition py_eq_str (v : value) (s : string) : bool :=
  match v with
  | VStr t => String.eqb t s
  | _ => false
  end.

(** Truth value of [v] in an [if]. *)
Definition py_truthy (v : value) : bool :=
  match v with
  | VNone => false
  | VBool b => b
  | VInt n => negb (n =? 0)%Z
  | VFloat r => negb (String.eqb r "0.0" || String.eqb r "-0.0")
  | VStr s => negb (String.eqb s "")
  | VList l => match l with [] => false | _ => true end
  | VDict d => match d with [] => false | _ => true end
  end.

(** [needle in hay] on two [str]: the substring test.  On well-formed
    UTF-8 an occurrence among the bytes is an occurrence among the code
    points, and conversely. *)
Fixpoint str_contains (needle hay : string) : bool :=
  String.prefix needle hay ||
  match hay with
  | EmptyString => false
  | String _ rest => str_contains needle rest
  end.

(** ** Exceptions *)

Inductive exn : Type :=
| KeyError (key : string)
| TypeError (msg : string)
| AttributeError (msg : string)
| JSONDecodeError (msg : string)
| OtherException (msg : string).

(** [str(e)].  A [KeyError] prints the [repr] of its key; every key the
    server subscripts with is a plain identifier, whose [repr] is the key
    between single quotes. *)
Definition exn_str (e : exn) : string :=
  match e with
  | KeyError key => "'" ++ key ++ "'"
  | TypeError msg => msg
  | AttributeError msg => msg
  | JSONDecodeError msg => msg
  | OtherException msg => msg
  end.

(** ** Programs *)

(** What [subprocess.run(args, capture_output=True, text=True, timeout=t)]
    does: the process ran and ended, or the timeout expired, or the call
    raised something else (no such executable, permission denied, an
    argument that is not a [str], ...). *)
Inductive subprocess_outcome : Type :=
| CompletedProcess (returncode : Z) (stdout stderr : string)
| TimeoutExpired
| RunRaised (e : exn).

Inductive prog (A : Type) : Type :=
| Ret (a : A)
| Raise (e : exn)
| SubprocessRun (args : list value) (timeout : Z)
                (k : subprocess_outcome -> prog A)
| Emit (line : string) (k : prog A).

Arguments Ret {A} a.
Arguments Raise {A} e.
Arguments SubprocessRun {A} args timeout k.
Arguments Emit {A} line k.

Fixpoint prog_bind {A B : Type} (p : prog A) (f : A -> prog B) : prog B :=
  match p with
  | Ret a => f a
  | Raise e => Raise e
  | SubprocessRun args timeout k =>
      SubprocessRun args timeout (fun o => prog_bind (k o) f)
  | Emit line k => Emit line (prog_bind k f)
  end.

(** [try: p  except Exception as e: handler e]. *)
Fixpoint prog_catch {A : Type} (p : prog A) (handler : exn -> prog A) : prog A :=
  match p with
  | Ret a => Ret a
  | Raise e => handler e
  | SubprocessRun args timeout k =>
      SubprocessRun args timeout (fun o => prog_catch (k o) handler)
  | Emit line k => Emit line (prog_catch k handler)
  end.

#[export] Instance Monad_prog : Monad prog :=
  {| ret := @Ret; bind := @prog_bind |}.

#[export] Instance MonadExc_prog : MonadExc exn prog :=
  {| raise := @Raise; catch := @prog_catch |}.

Definition subprocess_run (args : list value) (timeout : Z)
  : prog subprocess_outcome :=
  SubprocessRun args timeout Ret.

Definition lift_result {A : Type} (r : exn + A) : prog A :=
  match r with
  | inl e => Raise e
  | inr a => Ret a
  end.

(** [v.get(key, default)]: only a dict has [get]. *)
Definition py_get (v : value) (key : string) (default : value) : prog value :=
  match v with
  | VDict d => ret (dict_get key d default)
  | _ => raise (AttributeError
                  ("'" ++ type_name v ++ "' object has no attribute 'get'"))
  end.

(** [v[key]] for a string key. *)
Definition py_getitem (v : value) (key : string) : prog value :=
  match v with
  | VDict d =>
      match dict_lookup key d with
      | Some x => ret x
      | None => raise (KeyError key)
      end
  | VList _ => raise (TypeError "list indices must be integers or slices, not str")
  | VStr _ => raise (TypeError "string indices must be integers, not 'str'")
  | _ => raise (TypeError ("'" ++ type_name v ++ "' object is not subscriptable"))
  end.

(** [needle in hay].  The server only ever has a [str] on the right (the
    [stdout] entry that [run_command] fills from [result.stdout]); with a
    [str] on the right Python demands a [str] on the left. *)
Definition py_in (needle hay : value) : prog bool :=
  match hay with
  | VStr h =>
      match needle with
      | VStr n => ret (str_contains n h)
      | _ => raise (TypeError
                      ("'in <string>' requires string as left operand, not "
                       ++ type_name needle))
      end
  | _ => raise (TypeError
                  ("argument of type '" ++ type_name hay ++ "' is not iterable"))
  end.


(** ** The Python runtime *)

Class PyRuntime : Type := {
  (** [repr] of a list or of a dict *)
  py_repr : value -> string;
  (** [json.loads(s)]; [inl (JSONDecodeError _)] when [s] is not JSON *)
  json_loads : string -> exn + value;
  (** [json.dumps(obj, indent=indent, ensure_ascii=ensure_ascii)] *)
  json_dumps : value -> option Z -> bool -> string;
  (** [s.strip()] *)
  py_strip : string -> string;
  (** The text that [subprocess.run(..., text=True)] makes of the bytes a
      process wrote, or the [UnicodeDecodeError] that it raises *)
  locale_decode : string -> exn + string;
  (** [None] when [sys.stdout] can encode the text, and else the message of
      the [UnicodeEncodeError] that writing it raises *)
  stdout_rejects : string -> option string;
  (** [json.dumps] with [ensure_ascii=True] writes ASCII only, which
      [sys.stdout] encodes *)
  stdout_accepts_ascii :
    forall obj indent, stdout_rejects (json_dumps obj indent true) = None
}.

Section Server.

Context {runtime : PyRuntime}.

(** [str(v)], which is what an f-string field [{v}] renders. *)
Definition py_str (v : value) : string :=
  match v with
  | VNone => "None"
  | VBool true => "True"
  | VBool false => "False"
  | VInt n => NilZero.string_of_int (Z.to_int n)
  | VFloat r => r
  | VStr s => s
  | VList _ => py_repr v
  | VDict _ => py_repr v
  end.

(** [print(line)] followed by [sys.stdout.flush()]: the line is written,
    unless the standard output cannot encode it; the [UnicodeEncodeError] is
    then raised with nothing written. *)
Definition print (line : string) : prog unit :=
  match stdout_rejects line with
  | None => Emit line (Ret tt)
  | Some msg => Raise (OtherException msg)
  end.


(** [json.loads(v)]. *)
Definition py_json_loads (v : value) : prog value :=
  match v with
  | VStr s => lift_result (json_loads s)
  | _ => raise (TypeError
                  ("the JSON object must be str, bytes or bytearray, not "
                   ++ type_name v))
  end.

(** ** class IOSSimulatorMCPServer *)

Record IOSSimulatorMCPServer : Type := {
  version : string;
  request_id : Z
}.

(** [__init__] *)
Definition new_server : IOSSimulatorMCPServer :=
  {| version := "1.0.0"; request_id := 0 |}.

(** The one-block result of a tool: [{"content": [{"type": "text", "text": text}]}]. *)
Definition text_content (text : string) : value :=
  VDict [("content", VList [VDict [("type", VStr "text"); ("text", VStr text)]])].

Definition initialize (self : IOSSimulatorMCPServer) (params : value) : prog value :=
  ret (VDict [("protocolVersion", VStr "2024-11-05");
              ("capabilities", VDict [("tools", VDict [])]);
              ("serverInfo", VDict [("name", VStr "ios-simulator-mcp");
                                    ("version", VStr (version self))])]).

(** A [properties] entry of an input schema. *)
Definition string_property (description : string) : value :=
  VDict [("type", VStr "string"); ("description", VStr description)].

Definition input_schema (properties : dict) (required : list string) : value :=
  VDict [("type", VStr "object");
         ("properties", VDict properties);
         ("required", VList (map VStr required))].

(** The local [tools] of [list_tools]. *)
Definition tools : list value :=
  [ VDict [("name", VStr "list_devices");
           ("description", VStr "利用可能なiOSシミュレーターデバイスをリストアップ");
           ("inputSchema", input_schema [] [])];
    VDict [("name", VStr "boot_device");
           ("description", VStr "指定されたデバイスを起動");
           ("inputSchema",
            input_schema
              [("device_id", string_property "デバイスのUDIDまたはデバイス名")]
              ["device_id"])];
    VDict [("name", VStr "shutdown_device");
           ("description", VStr "指定されたデバイスをシャットダウン");
           ("inputSchema",
            input_schema
              [("device_id", string_property "デバイスのUDIDまたは'booted'")]
              ["device_id"])];
    VDict [("name", VStr "install_app");
           ("description", VStr "アプリをシミュレーターにインストール");
           ("inputSchema",
            input_schema
              [("device_id", string_property "デバイスのUDIDまたは'booted'");
               ("app_path", string_property ".appファイルのパス")]
              ["device_id"; "app_path"])];
    VDict [("name", VStr "launch_app");
           ("description", VStr "アプリを起動");
           ("inputSchema",
            input_schema
              [("device_id", string_property "デバイスのUDIDまたは'booted'");
               ("bundle_id", string_property "アプリのBundle ID")]
              ["device_id"; "bundle_id"])];
    VDict [("name", VStr "build_and_run");
           ("description", VStr "Xcodeプロジェクトをビルドしてシミュレーターで実行");
           ("inputSchema",
            input_schema
              [("project_path", string_property "Xcodeプロジェクトのパス");
               ("scheme", string_property "ビルドスキーム");
               ("device_id",
                VDict [("type", VStr "string");
                       ("description", VStr "デバイスのUDIDまたは'booted'");
                       ("default", VStr "booted")])]
              ["project_path"; "scheme"])];
    VDict [("name", VStr "get_app_status");
           ("description", VStr "アプリの実行状態を確認");
           ("inputSchema",
            input_schema
              [("device_id", string_property "デバイスのUDIDまたは'booted'");
               ("bundle_id", string_property "アプリのBundle ID")]
              ["device_id"; "bundle_id"])] ].

Definition list_tools (self : IOSSimulatorMCPServer) : prog value :=
  ret (VDict [("tools", VList tools)]).

(** ** The command runner *)

Definition run_command (self : IOSSimulatorMCPServer) (args : list value)
  : prog value :=
  outcome <- subprocess_run args 30 ;;
  match outcome with
  | CompletedProcess returncode stdout stderr =>
      ret (VDict [("success", VBool (returncode =? 0)%Z);
                  ("returncode", VInt returncode);
                  ("stdout", VStr stdout);
                  ("stderr", VStr stderr)])
  | TimeoutExpired =>
      ret (VDict [("success", VBool false);
                  ("error", VStr "Command timed out after 30 seconds")])
  | RunRaised e =>
      ret (VDict [("success", VBool false);
                  ("error", VStr (exn_str e))])
  end.

(** ** The tools *)

Definition list_devices (self : IOSSimulatorMCPServer) : prog value :=
  result <- run_command self
              [VStr "xcrun"; VStr "simctl"; VStr "list"; VStr "devices";
               VStr "available"; VStr "--json"] ;;
  success <- py_getitem result "success" ;;
  if py_truthy success then
    catch
      (stdout <- py_getitem result "stdout" ;;
       devices_data <- py_json_loads stdout ;;
       ret (text_content (json_dumps devices_data (Some 2) false)))
      (fun e =>
         match e with
         | JSONDecodeError _ =>
             stdout <- py_getitem result "stdout" ;;
             ret (text_content ("JSON解析エラー: " ++ py_str stdout))
         | _ => raise e
         end)
  else
    stderr <- py_getitem result "stderr" ;;
    ret (text_content ("コマンド失敗: " ++ py_str stderr)).

(** The shape shared by [boot_device], [shutdown_device], [install_app] and
    [launch_app]:
    [status = ok if result["success"] else f"{failed}{result['stderr']}"]. *)
Definition status_of (result : value) (ok failed : string) : prog string :=
  success <- py_getitem result "success" ;;
  if py_truthy success then ret ok
  else
    stderr <- py_getitem result "stderr" ;;
    ret (failed ++ py_str stderr).

Definition boot_device (self : IOSSimulatorMCPServer) (device_id : value)
  : prog value :=
  result <- run_command self
              [VStr "xcrun"; VStr "simctl"; VStr "boot"; device_id] ;;
  status <- status_of result "起動成功" "起動失敗: " ;;
  ret (text_content status).

Definition shutdown_device (self : IOSSimulatorMCPServer) (device_id : value)
  : prog value :=
  result <- run_command self
              [VStr "xcrun"; VStr "simctl"; VStr "shutdown"; device_id] ;;
  status <- status_of result "シャットダウン成功" "シャットダウン失敗: " ;;
  ret (text_content status).

Definition install_app (self : IOSSimulatorMCPServer)
           (device_id app_path : value) : prog value :=
  result <- run_command self
              [VStr "xcrun"; VStr "simctl"; VStr "install"; device_id; app_path] ;;
  status <- status_of result "インストール成功" "インストール失敗: " ;;
  ret (text_content status).

Definition launch_app (self : IOSSimulatorMCPServer)
           (device_id bundle_id : value) : prog value :=
  result <- run_command self
              [VStr "xcrun"; VStr "simctl"; VStr "launch"; device_id; bundle_id] ;;
  status <- status_of result "アプリ起動成功" "アプリ起動失敗: " ;;
  ret (text_content status).

Definition build_and_run (self : IOSSimulatorMCPServer)
           (project_path scheme device_id : value) : prog value :=
  build_result <- run_command self
                    [VStr "xcodebuild";
                     VStr "-project"; project_path;
                     VStr "-scheme"; scheme;
                     VStr "-destination"; VStr "generic/platform=iOS Simulator";
                     VStr "build"] ;;
  success <- py_getitem build_result "success" ;;
  if negb (py_truthy success) then
    stderr <- py_getitem build_result "stderr" ;;
    ret (text_content ("ビルド失敗:" ++ String "010"%char (py_str stderr)))
  else
    stdout <- py_getitem build_result "stdout" ;;
    ret (text_content ("ビルド成功:" ++ String "010"%char (py_str stdout))).

Definition get_app_status (self : IOSSimulatorMCPServer)
           (device_id bundle_id : value) : prog value :=
  result <- run_command self
              [VStr "xcrun"; VStr "simctl"; VStr "spawn"; device_id;
               VStr "launchctl"; VStr "list"] ;;
  success <- py_getitem result "success" ;;
  status <- (if py_truthy success then
               stdout <- py_getitem result "stdout" ;;
               running <- py_in bundle_id stdout ;;
               ret (if running : bool then "実行中" else "停止中")
             else
               stderr <- py_getitem result "stderr" ;;
               ret ("状態確認失敗: " ++ py_str stderr)) ;;
  ret (text_content status).

(** ** The dispatcher *)

Definition call_tool (self : IOSSimulatorMCPServer) (params : value)
  : prog value :=
  name <- py_get params "name" VNone ;;
  arguments <- py_get params "arguments" (VDict []) ;;
  if py_eq_str name "list_devices" then
    list_devices self
  else if py_eq_str name "boot_device" then
    device_id <- py_getitem arguments "device_id" ;;
    boot_device self device_id
  else if py_eq_str name "shutdown_device" then
    device_id <- py_getitem arguments "device_id" ;;
    shutdown_device self device_id
  else if py_eq_str name "install_app" then
    device_id <- py_getitem arguments "device_id" ;;
    app_path <- py_getitem arguments "app_path" ;;
    install_app self device_id app_path
  else if py_eq_str name "launch_app" then
    device_id <- py_getitem arguments "device_id" ;;
    bundle_id <- py_getitem arguments "bundle_id" ;;
    launch_app self device_id bundle_id
  else if py_eq_str name "build_and_run" then
    project_path <- py_getitem arguments "project_path" ;;
    scheme <- py_getitem arguments "scheme" ;;
    device_id <- py_get arguments "device_id" (VStr "booted") ;;
    build_and_run self project_path scheme device_id
  else if py_eq_str name "get_app_status" then
    device_id <- py_getitem arguments "device_id" ;;
    bundle_id <- py_getitem arguments "bundle_id" ;;
    get_app_status self device_id bundle_id
  else
    ret (VDict [("error", VStr ("Unknown tool: " ++ py_str name))]).

(** ** The JSON-RPC engine *)

Definition result_response (request_id result : value) : value :=
  VDict [("jsonrpc", VStr "2.0"); ("id", request_id); ("result", result)].

Definition error_response (request_id : value) (code : Z) (message : string)
  : value :=
  VDict [("jsonrpc", VStr "2.0");
         ("id", request_id);
         ("error", VDict [("code", VInt code); ("message", VStr message)])].

Definition handle_jsonrpc_request (self : IOSSimulatorMCPServer)
           (request : value) : prog value :=
  method <- py_get request "method" VNone ;;
  params <- py_get request "params" (VDict []) ;;
  request_id <- py_get request "id" VNone ;;
  catch
    (if py_eq_str method "initialize" then
       result <- initialize self params ;;
       ret (result_response request_id result)
     else if py_eq_str method "tools/list" then
       result <- list_tools self ;;
       ret (result_response request_id result)
     else if py_eq_str method "tools/call" then
       result <- call_tool self params ;;
       ret (result_response request_id result)
     else
       ret (error_response request_id (-32601)
              ("Method not found: " ++ py_str method)))
    (fun e => ret (error_response request_id (-32603) (exn_str e))).

(** ** The transport loop *)

(** One turn of the [while True] of [main] on a line that is not empty once
    stripped: the inner [try] around decoding and handling, inside the outer
    [try] of the loop body. *)
Definition serve_line (server : IOSSimulatorMCPServer) (line : string)
  : prog unit :=
  catch
    (catch
       (request <- lift_result (json_loads line) ;;
        response <- handle_jsonrpc_request server request ;;
        print (json_dumps response None false))
       (fun e =>
          match e with
          | JSONDecodeError _ =>
              print (json_dumps (error_response VNone (-32700) "Parse error")
                       None true)
          | _ => raise e
          end))
    (fun e =>
       print (json_dumps (error_response VNone (-32603) (exn_str e)) None true)).

(** The loop of [main].  [stdin] lists what the successive calls of
    [sys.stdin.readline] return; once the list is used up the stream is at
    its end and [readline] returns the empty string. *)
Fixpoint serve (server : IOSSimulatorMCPServer) (stdin : list string)
  : prog unit :=
  match stdin with
  | [] => ret tt
  | line :: rest =>
      if String.eqb line "" then ret tt
      else
        let line := py_strip line in
        if String.eqb line "" then serve server rest
        else serve_line server line ;; serve server rest
  end.

Definition main (stdin : list string) : prog unit :=
  serve new_server stdin.

End Server.

(** ** Reading the tool table *)

(** The [name] entry of a tool of the catalog. *)
Definition tool_name (tool : value) : option string :=
  match tool with
  | VDict d =>
      match dict_lookup "name" d with
      | Some (VStr s) => Some s
      | _ => None
      end
  | _ => None
  end.

Definition strings_of (items : list value) : list string :=
  flat_map (fun v => match v with VStr s => [s] | _ => [] end) items.

Definition schema_of (tool : value) : dict :=
  match tool with
  | VDict d =>
      match dict_lookup "inputSchema" d with
      | Some (VDict schema) => schema
      | _ => []
      end
  | _ => []
  end.

(** The [required] sequence of the input schema of a tool. *)
Definition tool_required (tool : value) : list string :=
  match dict_lookup "required" (schema_of tool) with
  | Some (VList items) => strings_of items
  | _ => []
  end.

(** The declared properties of a tool that are not required, each with its
    [default] entry when it has one. *)
Definition tool_optional (tool : value) : list (string * option value) :=
  match dict_lookup "properties" (schema_of tool) with
  | Some (VDict properties) =>
      flat_map
        (fun entry : string * value =>
           let (field, property) := entry in
           if existsb (String.eqb field) (tool_required tool) then []
           else [(field,
                  match property with
                  | VDict p => dict_lookup "default" p
                  | _ => None
                  end)])
        properties
  | _ => []
  end.

Definition tool_names : list string :=
  flat_map (fun tool => match tool_name tool with Some s => [s] | None => [] end)
           tools.

(** The required fields the catalog declares for the tool called [name]. *)
Definition required_fields (name : string) : option (list string) :=
  match find (fun tool => match tool_name tool with
                          | Some s => String.eqb name s
                          | None => false
                          end) tools with
  | Some tool => Some (tool_required tool)
  | None => None
  end.

(** What a tool of the catalog declares: its name, its required fields and
    its optional fields with their defaults. *)
Definition catalog_row (tool : value)
  : option string * list string * list (string * option value) :=
  (tool_name tool, tool_required tool, tool_optional tool).

(** The table of section 4.2 of the specification: name, required fields,
    optional fields with their defaults. *)
Definition documented_tools
  : list (string * list string * list (string * option value)) :=
  [("list_devices", [], []);
   ("boot_device", ["device_id"], []);
   ("shutdown_device", ["device_id"], []);
   ("install_app", ["device_id"; "app_path"], []);
   ("launch_app", ["device_id"; "bundle_id"], []);
   ("build_and_run", ["project_path"; "scheme"],
    [("device_id", Some (VStr "booted"))]);
   ("get_app_status", ["device_id"; "bundle_id"], [])].

(** ** Running a program *)

(** [yields P p]: whatever the external processes do, [p] ends by returning
    a value, and that value satisfies [P]. *)
Fixpoint yields {A : Type} (P : A -> Prop) (p : prog A) : Prop :=
  match p with
  | Ret a => P a
  | Raise _ => False
  | SubprocessRun _ _ k => forall o, yields P (k o)
  | Emit _ k => yields P k
  end.

Record run_result (A : Type) : Type := {
  printed : list string;
  issued : list (list value * Z);
  final : exn + A
}.

Arguments printed {A} _.
Arguments issued {A} _.
Arguments final {A} _.

(** [run_prog world calls p] runs [p] in a world where the process spawned
    after [calls] earlier ones, with arguments [args], ends as
    [world calls args] says.  It reports the lines printed, the commands
    issued with their timeouts, and how [p] ended. *)
Fixpoint run_prog {A : Type} (world : nat -> list value -> subprocess_outcome)
         (calls : nat) (p : prog A) : run_result A :=
  match p with
  | Ret a => {| printed := []; issued := []; final := inr a |}
  | Raise e => {| printed := []; issued := []; final := inl e |}
  | SubprocessRun args timeout k =>
      let r := run_prog world (S calls) (k (world calls args)) in
      {| printed := printed r;
         issued := (args, timeout) :: issued r;
         final := final r |}
  | Emit line k =>
      let r := run_prog world calls k in
      {| printed := line :: printed r;
         issued := issued r;
         final := final r |}
  end.

(** A response of the JSON-RPC engine to the request [request]: the
    [jsonrpc] member is "2.0", the [id] member is the [id] of the request
    ([None] when it has none), and there is either a [result] member or an
    [error] member made of an integer [code] and a string [message], not
    both. *)
Definition well_formed_response (request : dict) (response : value) : Prop :=
  exists entries,
    response = VDict entries /\
    dict_lookup "jsonrpc" entries = Some (VStr "2.0") /\
    dict_lookup "id" entries =
      Some (match dict_lookup "id" request with
            | Some request_id => request_id
            | None => VNone
            end) /\
    ((exists result,
         dict_lookup "result" entries = Some result /\
         dict_lookup "error" entries = None)
     \/
     (exists code message,
         dict_lookup "error" entries =
           Some (VDict [("code", VInt code); ("message", VStr message)]) /\
         dict_lookup "result" entries = None)).

(** ** A runtime to compute with *)

(** A small instance of [PyRuntime] on which the server can be run inside
    Rocq: [strip] removes the ASCII white space that [str.strip] removes,
    [loads] decodes the JSON documents listed in it and rejects every other
    text, [render] writes a value on one line, without escapes in its
    strings, in the syntax of JSON or in that of Python's [repr], [decode]
    is the strict UTF-8 decoding with universal newlines, and the standard
    output encodes every text. *)
Module SmallRuntime.

Definition is_space (c : ascii) : bool :=
  let n := nat_of_ascii c in
  ((9 <=? n) && (n <=? 13) || (28 <=? n) && (n <=? 32))%nat.

Fixpoint lstrip (s : string) : string :=
  match s with
  | EmptyString => EmptyString
  | String c rest => if is_space c then lstrip rest else s
  end.

Fixpoint rstrip (s : string) : string :=
  match s with
  | EmptyString => EmptyString
  | String c rest =>
      match rstrip rest with
      | EmptyString => if is_space c then EmptyString else String c EmptyString
      | kept => String c kept
      end
  end.

Definition strip (s : string) : string := rstrip (lstrip s).

Definition loads (s : string) : exn + value :=
  if String.eqb s "null" then inr VNone
  else if String.eqb s "true" then inr (VBool true)
  else if String.eqb s "false" then inr (VBool false)
  else if String.eqb s "0" then inr (VInt 0)
  else if String.eqb s "[]" then inr (VList [])
  else if String.eqb s "{}" then inr (VDict [])
  else inl (JSONDecodeError "Expecting value").

Definition quoted (mark : ascii) (s : string) : string :=
  String mark (s ++ String mark EmptyString).

Fixpoint render (python : bool) (v : value) : string :=
  let mark := if python then "039"%char else "034"%char in
  match v with
  | VNone => if python then "None" else "null"
  | VBool true => if python then "True" else "true"
  | VBool false => if python then "False" else "false"
  | VInt n => NilZero.string_of_int (Z.to_int n)
  | VFloat r => r
  | VStr s => quoted mark s
  | VList items =>
      "[" ++
      (fix render_items (l : list value) : string :=
         match l with
         | [] => ""
         | x :: rest =>
             render python x ++
             match rest with [] => "" | _ => ", " ++ render_items rest end
         end) items ++ "]"
  | VDict entries =>
      "{" ++
      (fix render_entries (l : list (string * value)) : string :=
         match l with
         | [] => ""
         | (key, x) :: rest =>
             quoted mark key ++ ": " ++ render python x ++
             match rest with [] => "" | _ => ", " ++ render_entries rest end
         end) entries ++ "}"
  end.

Definition byte_in (lo hi : nat) (c : ascii) : bool :=
  ((lo <=? nat_of_ascii c) && (nat_of_ascii c <=? hi))%nat.

(** [utf8_valid pending s]: [s] is well-formed UTF-8 once the continuation
    bytes that [pending] bounds have been read. *)
Fixpoint utf8_valid (pending : list (nat * nat)) (s : string) : bool :=
  match s with
  | EmptyString => match pending with [] => true | _ => false end
  | String c rest =>
      match pending with
      | (lo, hi) :: more => byte_in lo hi c && utf8_valid more rest
      | [] =>
          if byte_in 0 127 c then utf8_valid [] rest
          else if byte_in 194 223 c then
            utf8_valid [(128, 191)%nat] rest
          else if byte_in 224 224 c then
            utf8_valid [(160, 191)%nat; (128, 191)%nat] rest
          else if byte_in 225 236 c || byte_in 238 239 c then
            utf8_valid [(128, 191)%nat; (128, 191)%nat] rest
          else if byte_in 237 237 c then
            utf8_valid [(128, 159)%nat; (128, 191)%nat] rest
          else if byte_in 240 240 c then
            utf8_valid [(144, 191)%nat; (128, 191)%nat; (128, 191)%nat] rest
          else if byte_in 241 243 c then
            utf8_valid [(128, 191)%nat; (128, 191)%nat; (128, 191)%nat] rest
          else if byte_in 244 244 c then
            utf8_valid [(128, 143)%nat; (128, 191)%nat; (128, 191)%nat] rest
          else false
      end
  end.

(** A carriage return, alone or followed by a line feed, reads as a line
    feed. *)
Fixpoint universal_newlines (s : string) : string :=
  match s with
  | EmptyString => EmptyString
  | String c rest =>
      if Ascii.eqb c "013"%char then
        String "010"%char
               match rest with
               | String c' rest' =>
                   if Ascii.eqb c' "010"%char then universal_newlines rest'
                   else universal_newlines rest
               | EmptyString => EmptyString
               end
      else String c (universal_newlines rest)
  end.

Definition decode (s : string) : exn + string :=
  if utf8_valid [] s then inr (universal_newlines s)
  else inl (OtherException "'utf-8' codec can't decode the output").

Definition runtime : PyRuntime :=
  {| py_repr := render true;
     json_loads := loads;
     json_dumps := fun obj _ _ => render false obj;
     py_strip := strip;
     locale_decode := decode;
     stdout_rejects := fun _ => None;
     stdout_accepts_ascii := fun _ _ => eq_refl |}.

(** The same runtime with a decoder that, as [json.loads] does on a text
    nested deeper than the recursion limit, raises an exception that is not
    a [JSONDecodeError]; here the limit is three brackets. *)
Definition shallow_loads (s : string) : exn + value :=
  if String.prefix "[[[[" s
  then inl (OtherException "maximum recursion depth exceeded")
  else loads s.

Definition shallow_runtime : PyRuntime :=
  {| py_repr := render true;
     json_loads := shallow_loads;
     json_dumps := fun obj _ _ => render false obj;
     py_strip := strip;
     locale_decode := decode;
     stdout_rejects := fun _ => None;
     stdout_accepts_ascii := fun _ _ => eq_refl |}.

End SmallRuntime.

(** The line that holds a newline and nothing else. *)
Definition blank_line : string := String "010"%char EmptyString.

(** ** The transport loop and the lines that are not JSON *)

(** In the runtime [runtime], the transport loop answers every line that is
    not empty once stripped and that [json.loads] fails to decode, whatever
    the failure, with one parse error, and goes on with the lines that
    follow. *)
Definition answers_every_decode_failure (runtime : PyRuntime) : Prop :=
  forall (server : IOSSimulatorMCPServer) (line : string) (rest : list string)
         (e : exn),
    line <> "" ->
    py_strip line <> "" ->
    json_loads (py_strip line) = inl e ->
    serve server (line :: rest) =
      Emit (json_dumps (error_response VNone (-32700) "Parse error") None true)
           (serve server rest).

(** ** The command runner and the process *)



(** On a timeout the outcome of [run_command] has a false success flag, no
    exit code, and [message] as its error message, be it under the key
    [error] of the code or under the name [errorMessage] of the
    specification. *)
Definition timeout_message_is (message : string) : Prop :=
  forall (self : IOSSimulatorMCPServer) (args : list value),
  exists k outcome,
    run_command self args = SubprocessRun args 30 k /\
    k TimeoutExpired = Ret (VDict outcome) /\
    dict_lookup "success" outcome = Some (VBool false) /\
    (dict_lookup "error" outcome = Some (VStr message) \/
     dict_lookup "errorMessage" outcome = Some (VStr message)) /\
    has_key "returncode" outcome = false.

(** ** What a program does on every path *)

(** [frugal n p]: whatever the external processes do, [p] prints nothing
    and spawns at most [n] processes, each with the timeout 30. *)
Fixpoint frugal {A : Type} (n : nat) (p : prog A) {struct p} : Prop :=
  match p with
  | Ret _ => True
  | Raise _ => True
  | SubprocessRun _ timeout k =>
      timeout = 30 /\
      match n with
      | O => False
      | S m => forall o, frugal m (k o)
      end
  | Emit _ _ => False
  end.

(** [emits n p]: whatever the external processes do, [p] returns, having
    printed [n] lines. *)
Fixpoint emits {A : Type} (n : nat) (p : prog A) {struct p} : Prop :=
  match p with
  | Ret _ => n = O
  | Raise _ => False
  | SubprocessRun _ _ k => forall o, emits n (k o)
  | Emit _ k =>
      match n with
      | O => False
      | S m => emits m k
      end
  end.

(** [returns_only R p]: every value that [p] can return satisfies [R]. *)
Fixpoint returns_only {A : Type} (R : A -> Prop) (p : prog A) : Prop :=
  match p with
  | Ret a => R a
  | Raise _ => True
  | SubprocessRun _ _ k => forall o, returns_only R (k o)
  | Emit _ k => returns_only R k
  end.

(** A process that did not run: the timeout expired or the call raised. *)
Definition not_started (o : subprocess_outcome) : Prop :=
  o = TimeoutExpired \/ exists e, o = RunRaised e.

(** The lines that [sys.stdin.readline] hands to the loop before the end of
    the stream, which it signals by the empty string. *)
Fixpoint lines_read (stdin : list string) : list string :=
  match stdin with
  | [] => []
  | line :: rest =>
      if String.eqb line "" then [] else line :: lines_read rest
  end.

(** The payload of a tool: one text block. *)
Definition one_text_block (v : value) : Prop :=
  exists text, v = VDict [("content",
                            VList [VDict [("type", VStr "text");
                                          ("text", VStr text)]])].

(** ** Proof steps *)

Ltac lookup_cases arguments field :=
  let E := fresh "E" in
  destruct (dict_lookup field arguments) eqn:E;
  [| exists field; repeat split; [simpl; tauto | assumption]].

Ltac present_case arguments field Hall :=
  let E := fresh "E" in
  destruct (dict_lookup field arguments) eqn:E;
  [| exfalso; apply (Hall field); [simpl; tauto | exact E]].

Ltac unstarted_case Hworld :=
  eexists; simpl;
  match goal with
  | |- context [?world ?calls ?args] =>
      match type of (world calls args) with
      | subprocess_outcome =>
          let Ho := fresh "Ho" in
          let e := fresh "e" in
          destruct (Hworld calls args) as [Ho | [e Ho]]; rewrite Ho; reflexivity
      end
  end.

(** ** Generic facts *)

Lemma yields_run {A : Type} (P : A -> Prop) (p : prog A) :
  yields P p ->
  forall world calls, exists a, final (run_prog world calls p) = inr a /\ P a.
Proof.
  induction p as [a | e | args timeout k IH | line k IH]; simpl; intros H world calls.
  - exists a. split; [reflexivity | exact H].
  - contradiction.
  - apply IH, H.
  - apply IH, H.
Qed.

(** A [try] whose body ends by building a value from what [p] returns, and
    whose handler builds a value from the exception, always returns. *)
Lemma yields_try {A B : Type} (P : B -> Prop) (p : prog A)
      (on_result : A -> B) (on_error : exn -> B) :
  (forall a, P (on_result a)) ->
  (forall e, P (on_error e)) ->
  yields P (prog_catch (prog_bind p (fun a => Ret (on_result a)))
                       (fun e => Ret (on_error e))).
Proof.
  intros Hres Herr.
  induction p as [a | e | args timeout k IH | line k IH]; simpl; auto.
Qed.

Lemma tool_names_eq :
  tool_names =
    ["list_devices"; "boot_device"; "shutdown_device"; "install_app";
     "launch_app"; "build_and_run"; "get_app_status"].
Proof. reflexivity. Qed.

Lemma py_eq_str_true (v : value) (s : string) :
  py_eq_str v s = true <-> v = VStr s.
Proof.
  destruct v; simpl; try (split; [discriminate | intros H; discriminate H]).
  rewrite String.eqb_eq. split; [intros -> | intros [= ->]]; reflexivity.
Qed.

Lemma py_eq_str_false (v : value) (s : string) :
  py_eq_str v s = false <-> v <> VStr s.
Proof.
  rewrite <- py_eq_str_true. destruct (py_eq_str v s); split; congruence.
Qed.

Lemma well_formed_result (request : dict) (result : value) :
  well_formed_response request
    (result_response (dict_get "id" request VNone) result).
Proof.
  eexists. split; [reflexivity |]. repeat split.
  left. exists result. split; reflexivity.
Qed.

Lemma well_formed_error (request : dict) (code : Z) (message : string) :
  well_formed_response request
    (error_response (dict_get "id" request VNone) code message).
Proof.
  eexists. split; [reflexivity |]. repeat split.
  right. exists code, message. split; reflexivity.
Qed.

Section Properties.

Context {runtime : PyRuntime}.

(** ** The JSON-RPC engine *)

(** C1. Whatever the request mapping and whatever the external processes do,
    [handle_jsonrpc_request] returns a response whose [jsonrpc] member is
    "2.0", which has a [result] member or an [error] member and never both,
    and whose [id] member is the [id] of the request, [None] when the
    request has no [id]. *)
Theorem handle_jsonrpc_request_well_formed
        (self : IOSSimulatorMCPServer) (request : dict) :
  yields (well_formed_response request)
         (handle_jsonrpc_request self (VDict request)).
Proof.
  unfold handle_jsonrpc_request. simpl.
  destruct (py_eq_str (dict_get "method" request VNone) "initialize").
  { simpl. apply well_formed_result. }
  destruct (py_eq_str (dict_get "method" request VNone) "tools/list").
  { simpl. apply well_formed_result. }
  destruct (py_eq_str (dict_get "method" request VNone) "tools/call").
  { apply yields_try.
    - apply well_formed_result.
    - intros e. apply well_formed_error. }
  simpl. apply well_formed_error.
Qed.

(** C4. A request whose method is none of [initialize], [tools/list] and
    [tools/call] is answered with the error -32601, the message
    "Method not found: " followed by the method as [str] renders it, and the
    [id] of the request. *)
Theorem handle_jsonrpc_request_method_not_found
        (self : IOSSimulatorMCPServer) (request : dict) (method : value) :
  dict_get "method" request VNone = method ->
  method <> VStr "initialize" ->
  method <> VStr "tools/list" ->
  method <> VStr "tools/call" ->
  handle_jsonrpc_request self (VDict request) =
    Ret (error_response (dict_get "id" request VNone) (-32601)
           ("Method not found: " ++ py_str method)).
Proof.
  intros Hmethod Hinit Hlist Hcall.
  apply py_eq_str_false in Hinit, Hlist, Hcall.
  unfold handle_jsonrpc_request. simpl.
  rewrite Hmethod, Hinit, Hlist, Hcall. reflexivity.
Qed.

(** ** The dispatcher *)

Lemma not_a_tool (name : value) :
  (forall s, name = VStr s -> ~ In s tool_names) ->
  py_eq_str name "list_devices" = false /\
  py_eq_str name "boot_device" = false /\
  py_eq_str name "shutdown_device" = false /\
  py_eq_str name "install_app" = false /\
  py_eq_str name "launch_app" = false /\
  py_eq_str name "build_and_run" = false /\
  py_eq_str name "get_app_status" = false.
Proof.
  intros Hout.
  repeat split; apply py_eq_str_false; intros Heq;
    apply (Hout _ Heq); simpl; tauto.
Qed.

Lemma call_tool_unknown (self : IOSSimulatorMCPServer) (params : dict) :
  (forall s, dict_get "name" params VNone = VStr s -> ~ In s tool_names) ->
  call_tool self (VDict params) =
    Ret (VDict [("error",
                 VStr ("Unknown tool: " ++ py_str (dict_get "name" params VNone)))]).
Proof.
  intros Hout. apply not_a_tool in Hout.
  destruct Hout as (H1 & H2 & H3 & H4 & H5 & H6 & H7).
  unfold call_tool. simpl.
  rewrite H1, H2, H3, H4, H5, H6, H7. reflexivity.
Qed.

(** C2. A [tools/call] request whose tool name is not a name of the catalog
    gets a response with a [result] member, not an [error] member; the
    result is the dict [{"error": "Unknown tool: <name>"}]. *)
Theorem call_tool_unknown_tool_is_a_result
        (self : IOSSimulatorMCPServer) (request params : dict) (name : value) :
  dict_get "method" request VNone = VStr "tools/call" ->
  dict_get "params" request (VDict []) = VDict params ->
  dict_get "name" params VNone = name ->
  (forall s, name = VStr s -> ~ In s tool_names) ->
  call_tool self (VDict params) =
    Ret (VDict [("error", VStr ("Unknown tool: " ++ py_str name))]) /\
  handle_jsonrpc_request self (VDict request) =
    Ret (result_response (dict_get "id" request VNone)
           (VDict [("error", VStr ("Unknown tool: " ++ py_str name))])).
Proof.
  intros Hmethod Hparams Hname Hout. subst name.
  pose proof (call_tool_unknown self params Hout) as Hcall.
  split; [exact Hcall |].
  unfold handle_jsonrpc_request.
  cbn [py_get bind ret Monad_prog prog_bind].
  rewrite Hmethod, Hparams.
  cbn [py_eq_str String.eqb Ascii.eqb Bool.eqb].
  cbn [catch MonadExc_prog bind Monad_prog].
  rewrite Hcall. reflexivity.
Qed.

Lemma required_fields_cases (tool : string) (required : list string) :
  required_fields tool = Some required ->
  In (tool, required)
     [("list_devices", []);
      ("boot_device", ["device_id"]);
      ("shutdown_device", ["device_id"]);
      ("install_app", ["device_id"; "app_path"]);
      ("launch_app", ["device_id"; "bundle_id"]);
      ("build_and_run", ["project_path"; "scheme"]);
      ("get_app_status", ["device_id"; "bundle_id"])].
Proof.
  unfold required_fields. simpl.
  repeat match goal with
         | |- context [String.eqb tool ?a] =>
             destruct (String.eqb_spec tool a) as [-> | _];
             [intros [= <-]; simpl; tauto |]
         end.
  discriminate.
Qed.

(** The lookup of a required field that the arguments do not have raises
    [KeyError] before any command is issued. *)
Lemma call_tool_missing_argument
      (self : IOSSimulatorMCPServer) (params arguments : dict)
      (tool : string) (required : list string) (field : string) :
  dict_get "name" params VNone = VStr tool ->
  dict_get "arguments" params (VDict []) = VDict arguments ->
  required_fields tool = Some required ->
  In field required ->
  dict_lookup field arguments = None ->
  exists missing,
    In missing required /\
    dict_lookup missing arguments = None /\
    call_tool self (VDict params) = Raise (KeyError missing).
Proof.
  intros Hname Harguments Hrequired Hin Hnone.
  apply required_fields_cases in Hrequired. simpl in Hrequired.
  unfold call_tool. cbn [py_get bind ret Monad_prog prog_bind].
  rewrite Hname, Harguments.
  repeat match type of Hrequired with
         | _ \/ _ => destruct Hrequired as [Hrequired | Hrequired]
         end;
    try contradiction; injection Hrequired as <- <-; simpl in Hin;
    cbn [py_eq_str String.eqb Ascii.eqb Bool.eqb py_getitem].
  - contradiction.
  - lookup_cases arguments "device_id".
    destruct Hin as [<- | []]; congruence.
  - lookup_cases arguments "device_id".
    destruct Hin as [<- | []]; congruence.
  - lookup_cases arguments "device_id".
    lookup_cases arguments "app_path".
    destruct Hin as [<- | [<- | []]]; congruence.
  - lookup_cases arguments "device_id".
    lookup_cases arguments "bundle_id".
    destruct Hin as [<- | [<- | []]]; congruence.
  - lookup_cases arguments "project_path".
    lookup_cases arguments "scheme".
    destruct Hin as [<- | [<- | []]]; congruence.
  - lookup_cases arguments "device_id".
    lookup_cases arguments "bundle_id".
    destruct Hin as [<- | [<- | []]]; congruence.
Qed.

(** C3. A [tools/call] request for a tool of the catalog whose arguments
    lack a field that the catalog requires is answered with the error
    -32603 and the [id] of the request: the [KeyError] of the lookup is
    caught by [handle_jsonrpc_request], and its text is the message. *)
Theorem handle_jsonrpc_request_missing_argument
        (self : IOSSimulatorMCPServer) (request params arguments : dict)
        (tool : string) (required : list string) (field : string) :
  dict_get "method" request VNone = VStr "tools/call" ->
  dict_get "params" request (VDict []) = VDict params ->
  dict_get "name" params VNone = VStr tool ->
  dict_get "arguments" params (VDict []) = VDict arguments ->
  required_fields tool = Some required ->
  In field required ->
  dict_lookup field arguments = None ->
  exists missing,
    In missing required /\
    dict_lookup missing arguments = None /\
    handle_jsonrpc_request self (VDict request) =
      Ret (error_response (dict_get "id" request VNone) (-32603)
             (exn_str (KeyError missing))).
Proof.
  intros Hmethod Hparams Hname Harguments Hrequired Hin Hnone.
  destruct (call_tool_missing_argument self params arguments tool required
              field Hname Harguments Hrequired Hin Hnone)
    as (missing & Hmissing & Hlookup & Hcall).
  exists missing. split; [exact Hmissing |]. split; [exact Hlookup |].
  unfold handle_jsonrpc_request.
  cbn [py_get bind ret Monad_prog prog_bind].
  rewrite Hmethod, Hparams.
  cbn [py_eq_str String.eqb Ascii.eqb Bool.eqb].
  cbn [catch MonadExc_prog bind Monad_prog].
  rewrite Hcall. reflexivity.
Qed.

(** ** The tool catalog *)

(** C5. [list_tools] returns a catalog of seven tools whose names, required
    fields and optional fields are those of the table of the specification:
    [boot_device] requires [device_id] alone, [build_and_run] requires
    [project_path] and [scheme] and has the optional [device_id] of default
    "booted". *)
Theorem list_tools_matches_documented_tools (self : IOSSimulatorMCPServer) :
  exists catalog,
    list_tools self = Ret (VDict [("tools", VList catalog)]) /\
    map catalog_row catalog =
      map (fun row => match row with
                      | (name, required, optional) =>
                          (Some name, required, optional)
                      end) documented_tools.
Proof.
  exists tools. split; reflexivity.
Qed.

(** [tools/list] answers with that catalog as the result. *)
Lemma handle_jsonrpc_request_tools_list
      (self : IOSSimulatorMCPServer) (request : dict) :
  dict_get "method" request VNone = VStr "tools/list" ->
  handle_jsonrpc_request self (VDict request) =
    Ret (result_response (dict_get "id" request VNone)
           (VDict [("tools", VList tools)])).
Proof.
  intros Hmethod. unfold handle_jsonrpc_request.
  cbn [py_get bind ret Monad_prog prog_bind].
  rewrite Hmethod. reflexivity.
Qed.

(** ** The command runner *)

(** [run_command] spawns the process with the timeout 30 and turns each
    way [subprocess.run] can end into an outcome dict.  The [success] entry
    of the outcome is a boolean, true exactly when [subprocess.run] returned
    with the return code 0; the outcome has a [returncode] entry exactly
    when [subprocess.run] returned, and the entry is then the return
    code. *)
Lemma run_command_outcome (self : IOSSimulatorMCPServer) (args : list value) :
  exists k,
    run_command self args = SubprocessRun args 30 k /\
    forall o, exists outcome,
      k o = Ret (VDict outcome) /\
      (exists b, dict_lookup "success" outcome = Some (VBool b)) /\
      (dict_lookup "success" outcome = Some (VBool true) <->
       exists stdout stderr, o = CompletedProcess 0 stdout stderr) /\
      (has_key "returncode" outcome = true <->
       exists returncode stdout stderr,
         o = CompletedProcess returncode stdout stderr) /\
      (forall returncode stdout stderr,
          o = CompletedProcess returncode stdout stderr ->
          dict_lookup "returncode" outcome = Some (VInt returncode)).
Proof.
  eexists. split; [reflexivity |].
  intros [returncode stdout stderr | | e]; simpl; eexists;
    (split; [reflexivity |]); simpl.
  - split; [eexists; reflexivity |]. split; [| split].
    + split.
      * intros [= Hzero]. apply Z.eqb_eq in Hzero. subst. eauto.
      * intros (out & err & [= -> _ _]). reflexivity.
    + split; [eauto | reflexivity].
    + intros rc out err [= -> _ _]. reflexivity.
  - split; [eexists; reflexivity |]. split; [| split].
    + split; [discriminate | intros (out & err & H); discriminate H].
    + split; [discriminate | intros (rc & out & err & H); discriminate H].
    + intros rc out err H; discriminate H.
  - split; [eexists; reflexivity |]. split; [| split].
    + split; [discriminate | intros (out & err & H); discriminate H].
    + split; [discriminate | intros (rc & out & err & H); discriminate H].
    + intros rc out err H; discriminate H.
Qed.


(** C7, amended. [run_command] gives the process the fixed timeout 30.
    When the timeout expires it does not raise: it returns an outcome whose
    [success] entry is false, whose [error] entry is the message
    "Command timed out after 30 seconds", and which has no [returncode]
    entry. *)
Theorem run_command_timeout (self : IOSSimulatorMCPServer) (args : list value) :
  exists k outcome message,
    run_command self args = SubprocessRun args 30 k /\
    k TimeoutExpired = Ret (VDict outcome) /\
    dict_lookup "success" outcome = Some (VBool false) /\
    dict_lookup "error" outcome = Some (VStr message) /\
    message = "Command timed out after 30 seconds" /\
    str_contains "timed out" message = true /\
    has_key "returncode" outcome = false.
Proof.
  do 3 eexists. split; [reflexivity |].
  split; [reflexivity |]. repeat split.
Qed.

(** ** get_app_status *)

Lemma prefix_spec (needle hay : string) :
  String.prefix needle hay = true <-> exists after, hay = needle ++ after.
Proof.
  revert hay. induction needle as [| c needle IH]; intros hay.
  - split; [intros _; exists hay; reflexivity | destruct hay; reflexivity].
  - destruct hay as [| c' hay]; simpl.
    + split; [discriminate | intros [after H]; discriminate H].
    + destruct (Ascii.ascii_dec c c') as [<- | Hneq].
      * split.
        -- intros H. apply IH in H. destruct H as [after ->].
           exists after. reflexivity.
        -- intros [after [= H]]. apply IH. exists after. exact H.
      * split; [discriminate | intros [after [= H _]]; congruence].
Qed.

(** [str_contains needle hay] holds exactly when [needle] occurs in [hay]. *)
Lemma str_contains_spec (needle hay : string) :
  str_contains needle hay = true <->
  exists before after, hay = before ++ needle ++ after.
Proof.
  induction hay as [| c hay IH]; cbn [str_contains];
    rewrite orb_true_iff, prefix_spec.
  - split.
    + intros [[after H] | H]; [| discriminate H]. exists "", after. exact H.
    + intros (before & after & H). left.
      destruct before; [exists after; exact H | discriminate H].
  - rewrite IH. split.
    + intros [[after H] | (before & after & H)].
      * exists "", after. exact H.
      * exists (String c before), after. simpl. now rewrite H.
    + intros (before & after & H). destruct before as [| c' before].
      * left. exists after. exact H.
      * right. injection H as _ H. exists before, after. exact H.
Qed.

(** When the inspection command ran, [get_app_status] returns one text
    block: the running status exactly when the bundle id occurs in the
    standard output of a command that exited with 0, the stopped status
    when it exited with 0 and the bundle id does not occur, and the failure
    message with the standard error when it exited with another code. *)
Lemma get_app_status_completed
      (self : IOSSimulatorMCPServer) (device_id : value) (bundle_id : string)
      (returncode : Z) (stdout stderr : string) :
  exists k,
    get_app_status self device_id (VStr bundle_id) =
      SubprocessRun [VStr "xcrun"; VStr "simctl"; VStr "spawn"; device_id;
                     VStr "launchctl"; VStr "list"] 30 k /\
    k (CompletedProcess returncode stdout stderr) =
      Ret (text_content
             (if (returncode =? 0)%Z then
                if str_contains bundle_id stdout then "実行中" else "停止中"
              else "状態確認失敗: " ++ stderr)).
Proof.
  eexists. split; [reflexivity |]. simpl.
  destruct (returncode =? 0)%Z; simpl; [| reflexivity].
  destruct (str_contains bundle_id stdout); reflexivity.
Qed.

(** X18. When the inspection command exits with 0, the text block is the
    running status exactly when the bundle id occurs in the standard output,
    and the stopped status otherwise. *)
Lemma get_app_status_running_iff
      (self : IOSSimulatorMCPServer) (device_id : value) (bundle_id : string)
      (stdout stderr : string) :
  exists k status,
    get_app_status self device_id (VStr bundle_id) =
      SubprocessRun [VStr "xcrun"; VStr "simctl"; VStr "spawn"; device_id;
                     VStr "launchctl"; VStr "list"] 30 k /\
    k (CompletedProcess 0 stdout stderr) = Ret (text_content status) /\
    (status = "実行中" <->
     exists before after, stdout = before ++ bundle_id ++ after) /\
    (status = "停止中" <->
     ~ exists before after, stdout = before ++ bundle_id ++ after).
Proof.
  destruct (get_app_status_completed self device_id bundle_id 0 stdout stderr)
    as (k & Hrun & Hk).
  exists k. eexists. split; [exact Hrun |]. split; [exact Hk |].
  rewrite <- str_contains_spec. cbn [Z.eqb].
  destruct (str_contains bundle_id stdout).
  - split; split; try reflexivity; try discriminate.
    intros H. now contradiction H.
  - split; split; try reflexivity; try discriminate.
Qed.

(** C9, where the code departs from it.  When the inspection command times
    out, or cannot be started, the outcome of [run_command] has no [stderr]
    entry, and building the failure message raises [KeyError] in place of
    returning a text block. *)
Theorem get_app_status_unstarted_command_raises
        (self : IOSSimulatorMCPServer) (device_id bundle_id : value) :
  exists k,
    get_app_status self device_id bundle_id =
      SubprocessRun [VStr "xcrun"; VStr "simctl"; VStr "spawn"; device_id;
                     VStr "launchctl"; VStr "list"] 30 k /\
    k TimeoutExpired = Raise (KeyError "stderr") /\
    forall e, k (RunRaised e) = Raise (KeyError "stderr").
Proof.
  eexists. split; [reflexivity |]. split; [reflexivity |].
  intros e. reflexivity.
Qed.

(** ** build_and_run *)

(** C10. Two [build_and_run] calls whose arguments agree on [project_path]
    and on [scheme] are the same program, whatever each has, or has not,
    as [device_id]: they issue the same command and, for every outcome of
    it, return the same payload or raise the same exception.  The function
    itself never looks at its [device_id]. *)
Theorem build_and_run_ignores_device_id
        (self : IOSSimulatorMCPServer)
        (params1 params2 arguments1 arguments2 : dict) :
  dict_get "name" params1 VNone = VStr "build_and_run" ->
  dict_get "name" params2 VNone = VStr "build_and_run" ->
  dict_get "arguments" params1 (VDict []) = VDict arguments1 ->
  dict_get "arguments" params2 (VDict []) = VDict arguments2 ->
  dict_lookup "project_path" arguments1 = dict_lookup "project_path" arguments2 ->
  dict_lookup "scheme" arguments1 = dict_lookup "scheme" arguments2 ->
  call_tool self (VDict params1) = call_tool self (VDict params2) /\
  (forall world calls,
      run_prog world calls (call_tool self (VDict params1)) =
      run_prog world calls (call_tool self (VDict params2))) /\
  (forall project_path scheme device_id1 device_id2,
      build_and_run self project_path scheme device_id1 =
      build_and_run self project_path scheme device_id2).
Proof.
  intros Hname1 Hname2 Harguments1 Harguments2 Hproject Hscheme.
  assert (Hsame : call_tool self (VDict params1) = call_tool self (VDict params2)).
  { unfold call_tool. cbn [py_get bind ret Monad_prog prog_bind].
    rewrite Hname1, Hname2, Harguments1, Harguments2.
    cbn [py_eq_str String.eqb Ascii.eqb Bool.eqb py_getitem].
    rewrite Hproject, Hscheme.
    destruct (dict_lookup "project_path" arguments2); [| reflexivity].
    destruct (dict_lookup "scheme" arguments2); reflexivity. }
  split; [exact Hsame |]. split.
  - intros world calls. rewrite Hsame. reflexivity.
  - reflexivity.
Qed.

(** ** The transport loop *)

(** C8, amended.  A line that is not empty once stripped and on which
    [json.loads] raises [JSONDecodeError] makes the loop print one response,
    the parse error -32700 with the id [None], and go on with the lines that
    follow. *)
Theorem serve_parse_error
        (server : IOSSimulatorMCPServer) (line : string) (rest : list string)
        (msg : string) :
  line <> "" ->
  py_strip line <> "" ->
  json_loads (py_strip line) = inl (JSONDecodeError msg) ->
  serve server (line :: rest) =
    Emit (json_dumps (error_response VNone (-32700) "Parse error") None true)
          (serve server rest).
Proof.
  intros Hline Hstripped Hloads.
  apply String.eqb_neq in Hline, Hstripped.
  cbn [serve]. rewrite Hline, Hstripped.
  unfold serve_line. rewrite Hloads.
  cbn [lift_result bind catch Monad_prog MonadExc_prog prog_bind prog_catch].
  unfold print. rewrite stdout_accepts_ascii. reflexivity.
Qed.

(** A line that is empty once stripped gets no response. *)
Lemma serve_blank_line
      (server : IOSSimulatorMCPServer) (line : string) (rest : list string) :
  line <> "" ->
  py_strip line = "" ->
  serve server (line :: rest) = serve server rest.
Proof.
  intros Hline Hstripped. apply String.eqb_neq in Hline.
  cbn [serve]. rewrite Hline, Hstripped. reflexivity.
Qed.

(** A request that is not a mapping has no [get]: the lookups that precede
    the [try] of [handle_jsonrpc_request] raise, and the transport loop is
    what answers. *)
Lemma handle_jsonrpc_request_not_a_mapping
      (self : IOSSimulatorMCPServer) (request : value) :
  (forall entries, request <> VDict entries) ->
  handle_jsonrpc_request self request =
    Raise (AttributeError
             ("'" ++ type_name request ++ "' object has no attribute 'get'")).
Proof.
  intros Hrequest. destruct request; try reflexivity.
  now contradiction (Hrequest entries).
Qed.

End Properties.

(** ** The properties at concrete requests *)

(** A request for the method [ping], which the engine does not have. *)
Lemma handle_jsonrpc_request_method_not_found_witness :
  @handle_jsonrpc_request SmallRuntime.runtime new_server
    (VDict [("jsonrpc", VStr "2.0"); ("method", VStr "ping"); ("id", VInt 7)]) =
  Ret (error_response (VInt 7) (-32601) "Method not found: ping").
Proof.
  apply (@handle_jsonrpc_request_method_not_found SmallRuntime.runtime
           new_server
           [("jsonrpc", VStr "2.0"); ("method", VStr "ping"); ("id", VInt 7)]
           (VStr "ping")).
  - reflexivity.
  - intros H; discriminate H.
  - intros H; discriminate H.
  - intros H; discriminate H.
Defined.

(** A call of [reboot_device], which the catalog does not have. *)
Lemma call_tool_unknown_tool_is_a_result_witness :
  @call_tool SmallRuntime.runtime new_server
    (VDict [("name", VStr "reboot_device"); ("arguments", VDict [])]) =
    Ret (VDict [("error", VStr "Unknown tool: reboot_device")]) /\
  @handle_jsonrpc_request SmallRuntime.runtime new_server
    (VDict [("method", VStr "tools/call");
            ("params", VDict [("name", VStr "reboot_device");
                              ("arguments", VDict [])]);
            ("id", VInt 3)]) =
    Ret (result_response (VInt 3)
           (VDict [("error", VStr "Unknown tool: reboot_device")])).
Proof.
  apply (@call_tool_unknown_tool_is_a_result SmallRuntime.runtime new_server
           [("method", VStr "tools/call");
            ("params", VDict [("name", VStr "reboot_device");
                              ("arguments", VDict [])]);
            ("id", VInt 3)]
           [("name", VStr "reboot_device"); ("arguments", VDict [])]
           (VStr "reboot_device")).
  - reflexivity.
  - reflexivity.
  - reflexivity.
  - intros s [= <-]. simpl. intuition discriminate.
Defined.

(** The call of [boot_device] with no argument and the id 2. *)
Lemma handle_jsonrpc_request_missing_argument_witness :
  exists missing,
    In missing ["device_id"] /\
    dict_lookup missing [] = None /\
    @handle_jsonrpc_request SmallRuntime.runtime new_server
      (VDict [("method", VStr "tools/call");
              ("params", VDict [("name", VStr "boot_device");
                                ("arguments", VDict [])]);
              ("id", VInt 2)]) =
      Ret (error_response (VInt 2) (-32603) (exn_str (KeyError missing))).
Proof.
  apply (@handle_jsonrpc_request_missing_argument SmallRuntime.runtime
           new_server
           [("method", VStr "tools/call");
            ("params", VDict [("name", VStr "boot_device");
                              ("arguments", VDict [])]);
            ("id", VInt 2)]
           [("name", VStr "boot_device"); ("arguments", VDict [])]
           [] "boot_device" ["device_id"] "device_id").
  - reflexivity.
  - reflexivity.
  - reflexivity.
  - reflexivity.
  - reflexivity.
  - simpl. left. reflexivity.
  - reflexivity.
Defined.

(** Two builds of the same project and scheme, one for the device "A" and
    one with no [device_id]. *)
Lemma build_and_run_ignores_device_id_witness :
  @call_tool SmallRuntime.runtime new_server
    (VDict [("name", VStr "build_and_run");
            ("arguments", VDict [("project_path", VStr "App.xcodeproj");
                                 ("scheme", VStr "App");
                                 ("device_id", VStr "A")])]) =
  @call_tool SmallRuntime.runtime new_server
    (VDict [("name", VStr "build_and_run");
            ("arguments", VDict [("project_path", VStr "App.xcodeproj");
                                 ("scheme", VStr "App")])]).
Proof.
  apply (@build_and_run_ignores_device_id SmallRuntime.runtime new_server
           [("name", VStr "build_and_run");
            ("arguments", VDict [("project_path", VStr "App.xcodeproj");
                                 ("scheme", VStr "App");
                                 ("device_id", VStr "A")])]
           [("name", VStr "build_and_run");
            ("arguments", VDict [("project_path", VStr "App.xcodeproj");
                                 ("scheme", VStr "App")])]
           [("project_path", VStr "App.xcodeproj"); ("scheme", VStr "App");
            ("device_id", VStr "A")]
           [("project_path", VStr "App.xcodeproj"); ("scheme", VStr "App")]);
    reflexivity.
Defined.

(** The line [nonsense], followed by the empty request [{}]. *)
Lemma serve_parse_error_witness :
  @serve SmallRuntime.runtime new_server
    ["nonsense" ++ blank_line; "{}" ++ blank_line] =
  Emit (@json_dumps SmallRuntime.runtime
           (error_response VNone (-32700) "Parse error") None true)
        (@serve SmallRuntime.runtime new_server ["{}" ++ blank_line]).
Proof.
  apply (@serve_parse_error SmallRuntime.runtime new_server
           ("nonsense" ++ blank_line) ["{}" ++ blank_line] "Expecting value").
  - intros H; discriminate H.
  - intros H; discriminate H.
  - reflexivity.
Defined.

(** C8 as the specification words it fails: a line nested deeper than the
    decoder accepts does not decode as JSON, and the loop answers it with
    the error -32603, not with the parse error. *)
Lemma deep_line_gets_internal_error :
  ~ answers_every_decode_failure SmallRuntime.shallow_runtime.
Proof.
  intros H.
  specialize (H new_server ("[[[[]]]]" ++ blank_line) []
                (OtherException "maximum recursion depth exceeded")).
  assert (Hline : "[[[[]]]]" ++ blank_line <> "") by discriminate.
  assert (Hstripped :
            @py_strip SmallRuntime.shallow_runtime ("[[[[]]]]" ++ blank_line)
            <> "") by discriminate.
  specialize (H Hline Hstripped eq_refl).
  injection H as Hprinted. vm_compute in Hprinted. discriminate Hprinted.
Qed.


(** C7 as the specification words it fails: the message of the outcome on
    a timeout is not the text [timed out]. *)
Lemma timeout_message_is_not_timed_out : ~ timeout_message_is "timed out".
Proof.
  intros H.
  destruct (H new_server []) as (k & outcome & Hrun & Hk & _ & Hmessage & _).
  injection Hrun as <-. injection Hk as <-.
  destruct Hmessage as [Hmessage | Hmessage]; discriminate Hmessage.
Qed.

(** The loop on a blank line, a line that is not JSON and the empty request:
    nothing for the first, the parse error for the second, and the third is
    still answered. *)
Example main_after_parse_error :
  printed (run_prog (fun _ _ => TimeoutExpired) 0
             (@main SmallRuntime.runtime
                [blank_line; "nonsense" ++ blank_line; "{}" ++ blank_line])) =
  [SmallRuntime.render false (error_response VNone (-32700) "Parse error");
   SmallRuntime.render false
     (error_response VNone (-32601) "Method not found: None")].
Proof. reflexivity. Qed.

(** [boot_device] for the device "X" with the id 1, when the command exits
    with 0: the success phrase. *)
Example boot_device_success :
  run_prog (fun _ _ => CompletedProcess 0 "" "") 0
    (@handle_jsonrpc_request SmallRuntime.runtime new_server
       (VDict [("method", VStr "tools/call");
               ("params", VDict [("name", VStr "boot_device");
                                 ("arguments", VDict [("device_id", VStr "X")])]);
               ("id", VInt 1)])) =
  {| printed := [];
     issued := [([VStr "xcrun"; VStr "simctl"; VStr "boot"; VStr "X"], 30)];
     final := inr (result_response (VInt 1) (text_content "起動成功")) |}.
Proof. reflexivity. Qed.

(** [get_app_status] with the id 7 when the inspection command times out:
    the engine answers with the error -32603 and the message ['stderr'], the
    text of the [KeyError], where a failure message was due. *)
Example get_app_status_timeout_response :
  run_prog (fun _ _ => TimeoutExpired) 0
    (@handle_jsonrpc_request SmallRuntime.runtime new_server
       (VDict [("method", VStr "tools/call");
               ("params",
                VDict [("name", VStr "get_app_status");
                       ("arguments",
                        VDict [("device_id", VStr "booted");
                               ("bundle_id", VStr "com.example.app")])]);
               ("id", VInt 7)])) =
  {| printed := [];
     issued := [([VStr "xcrun"; VStr "simctl"; VStr "spawn"; VStr "booted";
                  VStr "launchctl"; VStr "list"], 30)];
     final := inr (error_response (VInt 7) (-32603) "'stderr'") |}.
Proof. reflexivity. Qed.


(** ** More on what programs do on every path *)

Lemma frugal_mono {A : Type} (n m : nat) (p : prog A) :
  (n <= m)%nat -> frugal n p -> frugal m p.
Proof.
  revert n m.
  induction p as [a | e | args timeout k IH | line k IH];
    intros n m Hle; simpl; auto.
  intros [Htimeout Hk]. split; [exact Htimeout |].
  destruct n as [| n]; [contradiction |].
  destruct m as [| m]; [lia |].
  intros o. apply (IH o n m); [lia | apply Hk].
Qed.

Lemma frugal_bind {A B : Type} (n m : nat) (p : prog A) (f : A -> prog B) :
  frugal n p -> (forall a, frugal m (f a)) -> frugal (n + m) (prog_bind p f).
Proof.
  revert n.
  induction p as [a | e | args timeout k IH | line k IH]; intros n; simpl.
  - intros _ Hf. apply (frugal_mono m); [lia | apply Hf].
  - trivial.
  - intros [Htimeout Hk] Hf. split; [exact Htimeout |].
    destruct n as [| n]; [contradiction |]. simpl.
    intros o. apply (IH o n); [apply Hk | exact Hf].
  - intros [].
Qed.

Lemma frugal_catch {A : Type} (n m : nat) (p : prog A) (h : exn -> prog A) :
  frugal n p -> (forall e, frugal m (h e)) -> frugal (n + m) (prog_catch p h).
Proof.
  revert n.
  induction p as [a | e | args timeout k IH | line k IH]; intros n; simpl.
  - trivial.
  - intros _ Hh. apply (frugal_mono m); [lia | apply Hh].
  - intros [Htimeout Hk] Hh. split; [exact Htimeout |].
    destruct n as [| n]; [contradiction |]. simpl.
    intros o. apply (IH o n); [apply Hk | exact Hh].
  - intros [].
Qed.

Lemma frugal_run {A : Type} (n : nat) (p : prog A) :
  frugal n p ->
  forall world calls,
    printed (run_prog world calls p) = [] /\
    (length (issued (run_prog world calls p)) <= n)%nat /\
    Forall (fun command => snd command = 30) (issued (run_prog world calls p)).
Proof.
  revert n.
  induction p as [a | e | args timeout k IH | line k IH];
    intros n Hp world calls; simpl in *.
  - repeat split; [lia | constructor].
  - repeat split; [lia | constructor].
  - destruct Hp as [Htimeout Hk]. destruct n as [| n]; [contradiction |].
    destruct (IH (world calls args) n (Hk _) world (S calls))
      as (Hprinted & Hlength & Hall).
    repeat split; [exact Hprinted | lia | constructor; [exact Htimeout | exact Hall]].
  - contradiction.
Qed.

Create HintDb prog_paths.

Section MoreProperties.

Context {runtime : PyRuntime}.

Lemma py_get_frugal (v : value) (key : string) (default : value) :
  frugal 0 (py_get v key default).
Proof. destruct v; exact I. Qed.

Lemma py_getitem_frugal (v : value) (key : string) :
  frugal 0 (py_getitem v key).
Proof.
  destruct v; try exact I. simpl. destruct (dict_lookup key entries); exact I.
Qed.

Lemma py_in_frugal (needle hay : value) : frugal 0 (py_in needle hay).
Proof. destruct hay; try exact I. destruct needle; exact I. Qed.

Lemma py_json_loads_frugal (v : value) : frugal 0 (py_json_loads v).
Proof.
  destruct v; try exact I. simpl. destruct (json_loads s); exact I.
Qed.

Lemma run_command_frugal (self : IOSSimulatorMCPServer) (args : list value) :
  frugal 1 (run_command self args).
Proof.
  simpl. split; [reflexivity |]. intros [returncode stdout stderr | | e]; exact I.
Qed.

#[local] Hint Resolve py_get_frugal py_getitem_frugal py_in_frugal
  py_json_loads_frugal run_command_frugal : prog_paths.
#[local] Hint Extern 1 (frugal 0 (bind _ _)) =>
  apply (frugal_bind 0 0) : prog_paths.
#[local] Hint Extern 1 (frugal 0 (catch _ _)) =>
  apply (frugal_catch 0 0) : prog_paths.
#[local] Hint Extern 1 (frugal 1 (bind (run_command _ _) _)) =>
  apply (frugal_bind 1 0) : prog_paths.
#[local] Hint Extern 1 (frugal _ (if ?b then _ else _)) =>
  destruct b : prog_paths.
#[local] Hint Extern 1 (frugal _ (match ?e with KeyError _ => _ | _ => _ end)) =>
  destruct e : prog_paths.
#[local] Hint Extern 1 (frugal _ (ret _)) => exact I : prog_paths.
#[local] Hint Extern 1 (frugal _ (raise _)) => exact I : prog_paths.

Lemma status_of_frugal (result : value) (ok failed : string) :
  frugal 0 (status_of result ok failed).
Proof. unfold status_of. auto 10 with prog_paths. Qed.

#[local] Hint Resolve status_of_frugal : prog_paths.

Lemma list_devices_frugal (self : IOSSimulatorMCPServer) :
  frugal 1 (list_devices self).
Proof. unfold list_devices. auto 12 with prog_paths. Qed.

Lemma boot_device_frugal (self : IOSSimulatorMCPServer) (device_id : value) :
  frugal 1 (boot_device self device_id).
Proof. unfold boot_device. auto 10 with prog_paths. Qed.

Lemma shutdown_device_frugal (self : IOSSimulatorMCPServer) (device_id : value) :
  frugal 1 (shutdown_device self device_id).
Proof. unfold shutdown_device. auto 10 with prog_paths. Qed.

Lemma install_app_frugal (self : IOSSimulatorMCPServer)
      (device_id app_path : value) :
  frugal 1 (install_app self device_id app_path).
Proof. unfold install_app. auto 10 with prog_paths. Qed.

Lemma launch_app_frugal (self : IOSSimulatorMCPServer)
      (device_id bundle_id : value) :
  frugal 1 (launch_app self device_id bundle_id).
Proof. unfold launch_app. auto 10 with prog_paths. Qed.

Lemma build_and_run_frugal (self : IOSSimulatorMCPServer)
      (project_path scheme device_id : value) :
  frugal 1 (build_and_run self project_path scheme device_id).
Proof. unfold build_and_run. auto 10 with prog_paths. Qed.

Lemma get_app_status_frugal (self : IOSSimulatorMCPServer)
      (device_id bundle_id : value) :
  frugal 1 (get_app_status self device_id bundle_id).
Proof. unfold get_app_status. auto 12 with prog_paths. Qed.

#[local] Hint Resolve list_devices_frugal boot_device_frugal
  shutdown_device_frugal install_app_frugal launch_app_frugal
  build_and_run_frugal get_app_status_frugal : prog_paths.
#[local] Hint Extern 2 (frugal 1 (bind _ _)) =>
  apply (frugal_bind 0 1) : prog_paths.
#[local] Hint Extern 3 (frugal 1 (bind _ _)) =>
  apply (frugal_bind 1 0) : prog_paths.
#[local] Hint Extern 2 (frugal 1 (catch _ _)) =>
  apply (frugal_catch 1 0) : prog_paths.

Lemma call_tool_frugal (self : IOSSimulatorMCPServer) (params : value) :
  frugal 1 (call_tool self params).
Proof. unfold call_tool. auto 20 with prog_paths. Qed.

#[local] Hint Resolve call_tool_frugal : prog_paths.

Lemma handle_jsonrpc_request_paths
      (self : IOSSimulatorMCPServer) (request : value) :
  frugal 1 (handle_jsonrpc_request self request).
Proof.
  unfold handle_jsonrpc_request, initialize, list_tools.
  auto 20 with prog_paths.
Qed.

(** X1. Whatever the request, [handle_jsonrpc_request] prints nothing and
    spawns at most one process, with the timeout 30. *)
Theorem handle_jsonrpc_request_frugal
        (self : IOSSimulatorMCPServer) (request : value)
        (world : nat -> list value -> subprocess_outcome) (calls : nat) :
  printed (run_prog world calls (handle_jsonrpc_request self request)) = [] /\
  (length (issued (run_prog world calls (handle_jsonrpc_request self request)))
   <= 1)%nat /\
  Forall (fun command => snd command = 30)
         (issued (run_prog world calls (handle_jsonrpc_request self request))).
Proof.
  apply frugal_run, handle_jsonrpc_request_paths.
Qed.

(** ** The transport loop, line by line *)

Lemma emits_bind {A B : Type} (n m : nat) (p : prog A) (f : A -> prog B) :
  emits n p -> (forall a, emits m (f a)) -> emits (n + m) (prog_bind p f).
Proof.
  revert n.
  induction p as [a | e | args timeout k IH | line k IH]; intros n; simpl.
  - intros -> Hf. apply Hf.
  - intros [].
  - intros Hk Hf o. apply IH; [apply Hk | exact Hf].
  - destruct n as [| n]; [intros [] |]. simpl.
    intros Hk Hf. apply IH; [exact Hk | exact Hf].
Qed.

Lemma emits_run {A : Type} (n : nat) (p : prog A) :
  emits n p ->
  forall world calls,
    length (printed (run_prog world calls p)) = n /\
    exists a, final (run_prog world calls p) = inr a.
Proof.
  revert n.
  induction p as [a | e | args timeout k IH | line k IH];
    intros n Hp world calls; simpl in *.
  - subst n. split; [reflexivity | exists a; reflexivity].
  - contradiction.
  - apply IH, Hp.
  - destruct n as [| n]; [contradiction |].
    destruct (IH n Hp world calls) as [Hlength Hfinal].
    split; [now rewrite Hlength | exact Hfinal].
Qed.

(** The two nested [try] of the loop around a computation that prints
    nothing, followed by the printing of its result: one line is printed on
    every path.  It is the result when the standard output encodes it, the
    internal error made of the encoding failure when it does not, and the
    parse error or the internal error when the computation raises. *)
Lemma answer_run {A : Type} (n : nat) (p : prog A)
      (shown : A -> string) (parse_error : string) (internal : exn -> string)
      (world : nat -> list value -> subprocess_outcome) (calls : nat) :
  frugal n p ->
  stdout_rejects parse_error = None ->
  (forall e, stdout_rejects (internal e) = None) ->
  run_prog world calls
    (prog_catch
       (prog_catch
          (prog_bind p (fun a => print (shown a)))
          (fun e => match e with
                    | JSONDecodeError _ => print parse_error
                    | _ => Raise e
                    end))
       (fun e => print (internal e))) =
  {| printed := [match final (run_prog world calls p) with
                 | inr a =>
                     match stdout_rejects (shown a) with
                     | None => shown a
                     | Some msg => internal (OtherException msg)
                     end
                 | inl (JSONDecodeError _) => parse_error
                 | inl e => internal e
                 end];
     issued := issued (run_prog world calls p);
     final := inr tt |}.
Proof.
  intros Hp Hparse Hinternal. revert n calls Hp.
  induction p as [a | e | args timeout k IH | line k IH];
    intros n calls Hp; simpl in *.
  - unfold print. destruct (stdout_rejects (shown a)) as [msg |]; simpl.
    + rewrite Hinternal. reflexivity.
    + reflexivity.
  - unfold print. destruct e; simpl; rewrite ?Hparse, ?Hinternal; reflexivity.
  - destruct Hp as [_ Hk]. destruct n as [| n]; [contradiction |].
    rewrite (IH _ n (S calls) (Hk _)). reflexivity.
  - contradiction.
Qed.

Lemma serve_line_run (server : IOSSimulatorMCPServer) (line : string)
      (world : nat -> list value -> subprocess_outcome) (calls : nat) :
  length (printed (run_prog world calls (serve_line server line))) = 1%nat /\
  final (run_prog world calls (serve_line server line)) = inr tt.
Proof.
  unfold serve_line.
  destruct (json_loads line) as [e | request];
    cbn [lift_result bind catch Monad_prog MonadExc_prog prog_bind prog_catch].
  - destruct e; simpl; unfold print; rewrite stdout_accepts_ascii;
      split; reflexivity.
  - rewrite (answer_run 1);
      [split; reflexivity
      | apply handle_jsonrpc_request_paths
      | apply stdout_accepts_ascii
      | intros e; apply stdout_accepts_ascii].
Qed.

Lemma emits_of_runs {A : Type} (n : nat) (p : prog A) :
  (forall world calls,
      length (printed (run_prog world calls p)) = n /\
      exists a, final (run_prog world calls p) = inr a) ->
  emits n p.
Proof.
  revert n.
  induction p as [a | e | args timeout k IH | line k IH]; intros n Hrun; simpl.
  - destruct (Hrun (fun _ _ => TimeoutExpired) 0%nat) as [Hlength _].
    simpl in Hlength. now subst n.
  - destruct (Hrun (fun _ _ => TimeoutExpired) 0%nat) as [_ [a Hfinal]].
    simpl in Hfinal. discriminate Hfinal.
  - intros o. apply IH. intros world calls.
    specialize (Hrun (fun i arguments => match i with
                                         | O => o
                                         | S j => world (calls + j)%nat arguments
                                         end) 0%nat).
    simpl in Hrun.
    assert (Hshift :
              forall (q : prog A) (m : nat),
                run_prog (fun i arguments =>
                            match i with
                            | O => o
                            | S j => world (calls + j)%nat arguments
                            end) (S m) q =
                run_prog world (calls + m) q).
    { induction q as [b | e | args' timeout' k' IHq | line' k' IHq];
        intros m; simpl; try reflexivity.
      - rewrite IHq. rewrite Nat.add_succ_r. reflexivity.
      - rewrite IHq. reflexivity. }
    rewrite (Hshift (k o) 0%nat), Nat.add_0_r in Hrun. exact Hrun.
  - destruct n as [| n].
    + destruct (Hrun (fun _ _ => TimeoutExpired) 0%nat) as [Hlength _].
      simpl in Hlength. discriminate Hlength.
    + apply IH. intros world calls.
      destruct (Hrun world calls) as [Hlength Hfinal]. simpl in *.
      split; [now injection Hlength | exact Hfinal].
Qed.

Lemma serve_line_emits (server : IOSSimulatorMCPServer) (line : string) :
  emits 1 (serve_line server line).
Proof.
  apply emits_of_runs. intros world calls.
  destruct (serve_line_run server line world calls) as [Hlength Hfinal].
  split; [exact Hlength | exists tt; exact Hfinal].
Qed.

Lemma serve_emits (server : IOSSimulatorMCPServer) (stdin : list string) :
  emits (length (filter (fun line => negb (String.eqb (py_strip line) ""))
                        (lines_read stdin)))
        (serve server stdin).
Proof.
  induction stdin as [| line rest IH]; cbn [serve lines_read].
  - reflexivity.
  - destruct (String.eqb line ""); [reflexivity |].
    cbn [filter]. destruct (String.eqb (py_strip line) ""); cbn [negb].
    + exact IH.
    + apply (emits_bind 1); [apply serve_line_emits | intros _; exact IH].
Qed.

(** X2. Whatever is read and whatever the external processes do, [main]
    ends without an exception, having printed as many lines as it read
    lines that are not empty once stripped. *)
Theorem main_one_response_per_line
        (stdin : list string)
        (world : nat -> list value -> subprocess_outcome) (calls : nat) :
  final (run_prog world calls (main stdin)) = inr tt /\
  length (printed (run_prog world calls (main stdin))) =
    length (filter (fun line => negb (String.eqb (py_strip line) ""))
                   (lines_read stdin)).
Proof.
  destruct (emits_run _ _ (serve_emits new_server stdin) world calls)
    as [Hlength [[] Hfinal]].
  split; [exact Hfinal | exact Hlength].
Qed.

(** X3. The line printed for an input line that decodes to [request] is
    the response of [handle_jsonrpc_request] to it, encoded by [json.dumps]
    with [ensure_ascii=False], when the standard output can encode that
    line; when it cannot, nothing of it is written and the line printed is
    the error -32603 with the id [None] and the message of the encoding
    failure.  If the handler raises instead of returning, the line is the
    error -32603 with the id [None] (the parse error -32700 for a
    [JSONDecodeError]).  The processes spawned are those of the handler. *)
Theorem serve_line_prints_response
        (server : IOSSimulatorMCPServer) (line : string) (request : value)
        (world : nat -> list value -> subprocess_outcome) (calls : nat) :
  json_loads line = inr request ->
  run_prog world calls (serve_line server line) =
  {| printed :=
       [match final (run_prog world calls
                       (handle_jsonrpc_request server request)) with
        | inr response =>
            match stdout_rejects (json_dumps response None false) with
            | None => json_dumps response None false
            | Some msg =>
                json_dumps (error_response VNone (-32603) msg) None true
            end
        | inl (JSONDecodeError _) =>
            json_dumps (error_response VNone (-32700) "Parse error") None true
        | inl e =>
            json_dumps (error_response VNone (-32603) (exn_str e)) None true
        end];
     issued := issued (run_prog world calls
                         (handle_jsonrpc_request server request));
     final := inr tt |}.
Proof.
  intros Hloads. unfold serve_line. rewrite Hloads.
  apply (answer_run 1 (handle_jsonrpc_request server request)
           (fun response => json_dumps response None false)
           (json_dumps (error_response VNone (-32700) "Parse error") None true)
           (fun e =>
              json_dumps (error_response VNone (-32603) (exn_str e)) None true)).
  - apply handle_jsonrpc_request_paths.
  - apply stdout_accepts_ascii.
  - intros e. apply stdout_accepts_ascii.
Qed.

(** X4. A line that decodes to a value that is not a mapping is answered
    with the error -32603 and the id [None]; the message is that of the
    [AttributeError] of the first [request.get].  The loop goes on. *)
Theorem serve_not_a_mapping
        (server : IOSSimulatorMCPServer) (line : string) (rest : list string)
        (request : value) :
  line <> "" ->
  py_strip line <> "" ->
  json_loads (py_strip line) = inr request ->
  (forall entries, request <> VDict entries) ->
  serve server (line :: rest) =
    Emit (json_dumps
            (error_response VNone (-32603)
               ("'" ++ type_name request ++ "' object has no attribute 'get'"))
            None true)
         (serve server rest).
Proof.
  intros Hline Hstripped Hloads Hrequest.
  apply String.eqb_neq in Hline, Hstripped.
  cbn [serve]. rewrite Hline, Hstripped.
  unfold serve_line. rewrite Hloads.
  cbn [lift_result bind Monad_prog prog_bind].
  rewrite (handle_jsonrpc_request_not_a_mapping server request Hrequest).
  cbn [bind catch raise Monad_prog MonadExc_prog prog_bind prog_catch].
  unfold print. rewrite stdout_accepts_ascii. reflexivity.
Qed.

(** X5. When [json.loads] raises something other than [JSONDecodeError] on
    a line, the loop answers with the error -32603, the id [None] and the
    text of the exception, and goes on. *)
Theorem serve_decoder_fault
        (server : IOSSimulatorMCPServer) (line : string) (rest : list string)
        (e : exn) :
  line <> "" ->
  py_strip line <> "" ->
  json_loads (py_strip line) = inl e ->
  (forall msg, e <> JSONDecodeError msg) ->
  serve server (line :: rest) =
    Emit (json_dumps (error_response VNone (-32603) (exn_str e)) None true)
         (serve server rest).
Proof.
  intros Hline Hstripped Hloads He.
  apply String.eqb_neq in Hline, Hstripped.
  cbn [serve]. rewrite Hline, Hstripped.
  unfold serve_line. rewrite Hloads.
  destruct e; try (now contradiction (He msg));
    simpl; unfold print; rewrite stdout_accepts_ascii; reflexivity.
Qed.

(** ** The engine around the dispatcher *)

Lemma try_run {A B : Type} (p : prog A) (on_result : A -> B)
      (on_error : exn -> B)
      (world : nat -> list value -> subprocess_outcome) (calls : nat) :
  run_prog world calls
    (prog_catch (prog_bind p (fun a => Ret (on_result a)))
                (fun e => Ret (on_error e))) =
  {| printed := printed (run_prog world calls p);
     issued := issued (run_prog world calls p);
     final := inr (match final (run_prog world calls p) with
                   | inr a => on_result a
                   | inl e => on_error e
                   end) |}.
Proof.
  revert calls.
  induction p as [a | e | args timeout k IH | line k IH]; intros calls; simpl.
  - reflexivity.
  - reflexivity.
  - rewrite IH. reflexivity.
  - rewrite IH. reflexivity.
Qed.

(** X6. The response to a [tools/call] request runs [call_tool] on the
    params, whatever they are: it carries what [call_tool] returns as the
    result, or the error -32603 with the text of what [call_tool] raises as
    the message, and in both cases the id of the request. *)
Theorem handle_jsonrpc_request_tools_call
        (self : IOSSimulatorMCPServer) (request : dict) (params : value)
        (world : nat -> list value -> subprocess_outcome) (calls : nat) :
  dict_get "method" request VNone = VStr "tools/call" ->
  dict_get "params" request (VDict []) = params ->
  run_prog world calls (handle_jsonrpc_request self (VDict request)) =
  {| printed := printed (run_prog world calls (call_tool self params));
     issued := issued (run_prog world calls (call_tool self params));
     final :=
       inr (match final (run_prog world calls (call_tool self params)) with
            | inr result =>
                result_response (dict_get "id" request VNone) result
            | inl e =>
                error_response (dict_get "id" request VNone) (-32603)
                               (exn_str e)
            end) |}.
Proof.
  intros Hmethod Hparams. unfold handle_jsonrpc_request.
  cbn [py_get bind ret Monad_prog prog_bind].
  rewrite Hmethod, Hparams.
  cbn [py_eq_str String.eqb Ascii.eqb Bool.eqb].
  apply try_run.
Qed.

(** X7. A [tools/call] request whose params are not a mapping is answered
    with the error -32603 and the id of the request, and no process is
    spawned. *)
Theorem handle_jsonrpc_request_params_not_a_mapping
        (self : IOSSimulatorMCPServer) (request : dict) (params : value) :
  dict_get "method" request VNone = VStr "tools/call" ->
  dict_get "params" request (VDict []) = params ->
  (forall entries, params <> VDict entries) ->
  handle_jsonrpc_request self (VDict request) =
    Ret (error_response (dict_get "id" request VNone) (-32603)
           ("'" ++ type_name params ++ "' object has no attribute 'get'")).
Proof.
  intros Hmethod Hparams Hnot. unfold handle_jsonrpc_request.
  cbn [py_get bind ret Monad_prog prog_bind].
  rewrite Hmethod, Hparams.
  cbn [py_eq_str String.eqb Ascii.eqb Bool.eqb].
  destruct params; try reflexivity. now contradiction (Hnot entries).
Qed.

(** ** The tools when the command does not run *)

Lemma call_tool_unstarted_command
      (self : IOSSimulatorMCPServer) (params arguments : dict)
      (tool : string) (required : list string)
      (world : nat -> list value -> subprocess_outcome) (calls : nat) :
  dict_get "name" params VNone = VStr tool ->
  dict_get "arguments" params (VDict []) = VDict arguments ->
  required_fields tool = Some required ->
  (forall field, In field required -> dict_lookup field arguments <> None) ->
  (forall n args, not_started (world n args)) ->
  exists command,
    run_prog world calls (call_tool self (VDict params)) =
    {| printed := [];
       issued := [(command, 30)];
       final := inl (KeyError "stderr") |}.
Proof.
  intros Hname Harguments Hrequired Hall Hworld.
  apply required_fields_cases in Hrequired. simpl in Hrequired.
  unfold call_tool. cbn [py_get bind ret Monad_prog prog_bind].
  rewrite Hname, Harguments.
  repeat match type of Hrequired with
         | _ \/ _ => destruct Hrequired as [Hrequired | Hrequired]
         end;
    try contradiction; injection Hrequired as <- <-;
    cbn [py_eq_str String.eqb Ascii.eqb Bool.eqb py_getitem].
  - unstarted_case Hworld.
  - present_case arguments "device_id" Hall. unstarted_case Hworld.
  - present_case arguments "device_id" Hall. unstarted_case Hworld.
  - present_case arguments "device_id" Hall.
    present_case arguments "app_path" Hall. unstarted_case Hworld.
  - present_case arguments "device_id" Hall.
    present_case arguments "bundle_id" Hall. unstarted_case Hworld.
  - present_case arguments "project_path" Hall.
    present_case arguments "scheme" Hall. unstarted_case Hworld.
  - present_case arguments "device_id" Hall.
    present_case arguments "bundle_id" Hall. unstarted_case Hworld.
Qed.

(** X8. For each of the seven tools, called with every field it requires:
    when the command does not run (the timeout expires, or the process
    cannot be started), the tool spawns that one command and then raises
    [KeyError] on the [stderr] entry that the outcome lacks, and the
    response is the error -32603 with the message ['stderr']. *)
Theorem handle_jsonrpc_request_unstarted_command
        (self : IOSSimulatorMCPServer) (request params arguments : dict)
        (tool : string) (required : list string)
        (world : nat -> list value -> subprocess_outcome) (calls : nat) :
  dict_get "method" request VNone = VStr "tools/call" ->
  dict_get "params" request (VDict []) = VDict params ->
  dict_get "name" params VNone = VStr tool ->
  dict_get "arguments" params (VDict []) = VDict arguments ->
  required_fields tool = Some required ->
  (forall field, In field required -> dict_lookup field arguments <> None) ->
  (forall n args, not_started (world n args)) ->
  exists command,
    run_prog world calls (handle_jsonrpc_request self (VDict request)) =
    {| printed := [];
       issued := [(command, 30)];
       final := inr (error_response (dict_get "id" request VNone) (-32603)
                       "'stderr'") |}.
Proof.
  intros Hmethod Hparams Hname Harguments Hrequired Hall Hworld.
  destruct (call_tool_unstarted_command self params arguments tool required
              world calls Hname Harguments Hrequired Hall Hworld)
    as [command Hcall].
  exists command. unfold handle_jsonrpc_request.
  cbn [py_get bind ret Monad_prog prog_bind].
  rewrite Hmethod, Hparams.
  cbn [py_eq_str String.eqb Ascii.eqb Bool.eqb].
  cbn [catch MonadExc_prog bind Monad_prog].
  rewrite try_run, Hcall. reflexivity.
Qed.

(** ** The tools when the command runs *)

(** X9. [boot_device], [shutdown_device], [install_app] and [launch_app]
    each spawn one [xcrun simctl] command made of the verb and of their
    arguments in order.  When it ran, they return one text block: the fixed
    success phrase if it exited with 0, whatever it wrote, and else the
    failure phrase followed by its standard error. *)
Theorem simctl_tools_completed
        (self : IOSSimulatorMCPServer) (device_id other : value)
        (returncode : Z) (stdout stderr : string) :
  (exists k,
      boot_device self device_id =
        SubprocessRun [VStr "xcrun"; VStr "simctl"; VStr "boot"; device_id] 30 k /\
      k (CompletedProcess returncode stdout stderr) =
        Ret (text_content (if (returncode =? 0)%Z then "起動成功"
                           else "起動失敗: " ++ stderr))) /\
  (exists k,
      shutdown_device self device_id =
        SubprocessRun [VStr "xcrun"; VStr "simctl"; VStr "shutdown"; device_id]
                      30 k /\
      k (CompletedProcess returncode stdout stderr) =
        Ret (text_content (if (returncode =? 0)%Z then "シャットダウン成功"
                           else "シャットダウン失敗: " ++ stderr))) /\
  (exists k,
      install_app self device_id other =
        SubprocessRun [VStr "xcrun"; VStr "simctl"; VStr "install"; device_id;
                       other] 30 k /\
      k (CompletedProcess returncode stdout stderr) =
        Ret (text_content (if (returncode =? 0)%Z then "インストール成功"
                           else "インストール失敗: " ++ stderr))) /\
  (exists k,
      launch_app self device_id other =
        SubprocessRun [VStr "xcrun"; VStr "simctl"; VStr "launch"; device_id;
                       other] 30 k /\
      k (CompletedProcess returncode stdout stderr) =
        Ret (text_content (if (returncode =? 0)%Z then "アプリ起動成功"
                           else "アプリ起動失敗: " ++ stderr))).
Proof.
  repeat split; eexists; (split; [reflexivity |]); simpl;
    destruct (returncode =? 0)%Z; reflexivity.
Qed.

(** X10. [build_and_run] spawns the one [xcodebuild ... build] command for
    the project and the scheme, and nothing after it: when the command ran
    it returns at once, with the standard output after the success phrase
    if it exited with 0 and the standard error after the failure phrase
    otherwise. *)
Theorem build_and_run_completed
        (self : IOSSimulatorMCPServer) (project_path scheme device_id : value)
        (returncode : Z) (stdout stderr : string) :
  exists k,
    build_and_run self project_path scheme device_id =
      SubprocessRun [VStr "xcodebuild"; VStr "-project"; project_path;
                     VStr "-scheme"; scheme; VStr "-destination";
                     VStr "generic/platform=iOS Simulator"; VStr "build"] 30 k /\
    k (CompletedProcess returncode stdout stderr) =
      Ret (text_content
             (if (returncode =? 0)%Z
              then "ビルド成功:" ++ String "010"%char stdout
              else "ビルド失敗:" ++ String "010"%char stderr)).
Proof.
  eexists. split; [reflexivity |]. simpl.
  destruct (returncode =? 0)%Z; reflexivity.
Qed.

(** X11. [list_devices] spawns [xcrun simctl list devices available --json].
    When the command exited with 0 it decodes the standard output and
    returns it encoded again with [indent=2] and [ensure_ascii=False]; if
    the output is not JSON it returns the parse message followed by the raw
    output; any other exception of the decoder is raised.  When the command
    exited with another code it returns the failure message followed by the
    standard error. *)
Theorem list_devices_completed
        (self : IOSSimulatorMCPServer)
        (returncode : Z) (stdout stderr : string) :
  exists k,
    list_devices self =
      SubprocessRun [VStr "xcrun"; VStr "simctl"; VStr "list"; VStr "devices";
                     VStr "available"; VStr "--json"] 30 k /\
    k (CompletedProcess returncode stdout stderr) =
      if (returncode =? 0)%Z then
        match json_loads stdout with
        | inr devices_data =>
            Ret (text_content (json_dumps devices_data (Some 2) false))
        | inl (JSONDecodeError _) =>
            Ret (text_content ("JSON解析エラー: " ++ stdout))
        | inl e => Raise e
        end
      else Ret (text_content ("コマンド失敗: " ++ stderr)).
Proof.
  eexists. split; [reflexivity |]. simpl.
  destruct (returncode =? 0)%Z; simpl; [| reflexivity].
  destruct (json_loads stdout) as [e | devices_data]; simpl; [| reflexivity].
  destruct e; reflexivity.
Qed.

(** X12. With an empty bundle id, [get_app_status] reports the running
    status as soon as the inspection command exits with 0, whatever the
    command printed: the empty string occurs in every string. *)
Theorem get_app_status_empty_bundle_id
        (self : IOSSimulatorMCPServer) (device_id : value)
        (stdout stderr : string) :
  exists k,
    get_app_status self device_id (VStr "") =
      SubprocessRun [VStr "xcrun"; VStr "simctl"; VStr "spawn"; device_id;
                     VStr "launchctl"; VStr "list"] 30 k /\
    k (CompletedProcess 0 stdout stderr) = Ret (text_content "実行中").
Proof.
  destruct (get_app_status_completed self device_id "" 0 stdout stderr)
    as (k & Hrun & Hk).
  exists k. split; [exact Hrun |]. rewrite Hk. cbn [Z.eqb].
  assert (Hin : str_contains "" stdout = true).
  { apply str_contains_spec. exists "", stdout. reflexivity. }
  rewrite Hin. reflexivity.
Qed.

(** X13. A bundle id that is not a string makes [get_app_status] raise a
    [TypeError] when the inspection command exits with 0: the substring
    test needs a string on its left. *)
Theorem get_app_status_bundle_id_not_a_string
        (self : IOSSimulatorMCPServer) (device_id bundle_id : value)
        (stdout stderr : string) :
  (forall s, bundle_id <> VStr s) ->
  exists k msg,
    get_app_status self device_id bundle_id =
      SubprocessRun [VStr "xcrun"; VStr "simctl"; VStr "spawn"; device_id;
                     VStr "launchctl"; VStr "list"] 30 k /\
    k (CompletedProcess 0 stdout stderr) = Raise (TypeError msg).
Proof.
  intros Hnot.
  destruct bundle_id as [| b | n | r | s | items | entries];
    try (do 2 eexists; split; reflexivity).
  now contradiction (Hnot s).
Qed.

(** ** The dispatcher and arguments that are not a mapping *)

(** X14. A call of a tool that requires a field, with arguments that are
    not a mapping, raises a [TypeError] at the first subscript, before any
    process is spawned; the response is the error -32603 with the text of
    the [TypeError] and the id of the request. *)
Theorem handle_jsonrpc_request_arguments_not_a_mapping
        (self : IOSSimulatorMCPServer) (request params : dict)
        (arguments : value) (tool field : string) (others : list string) :
  dict_get "method" request VNone = VStr "tools/call" ->
  dict_get "params" request (VDict []) = VDict params ->
  dict_get "name" params VNone = VStr tool ->
  dict_get "arguments" params (VDict []) = arguments ->
  (forall entries, arguments <> VDict entries) ->
  required_fields tool = Some (field :: others) ->
  exists msg,
    call_tool self (VDict params) = Raise (TypeError msg) /\
    handle_jsonrpc_request self (VDict request) =
      Ret (error_response (dict_get "id" request VNone) (-32603) msg).
Proof.
  intros Hmethod Hparams Hname Harguments Hnot Hrequired.
  apply required_fields_cases in Hrequired. simpl in Hrequired.
  unfold handle_jsonrpc_request.
  cbn [py_get bind ret Monad_prog prog_bind].
  rewrite Hmethod, Hparams.
  cbn [py_eq_str String.eqb Ascii.eqb Bool.eqb].
  unfold call_tool. cbn [py_get bind ret Monad_prog prog_bind].
  rewrite Hname, Harguments.
  repeat match type of Hrequired with
         | _ \/ _ => destruct Hrequired as [Hrequired | Hrequired]
         end;
    try contradiction; try discriminate Hrequired;
    injection Hrequired as <- _ _;
    cbn [py_eq_str String.eqb Ascii.eqb Bool.eqb];
    (destruct arguments;
     [eexists; split; reflexivity .. | now contradiction (Hnot entries)]).
Qed.

(** ** What the tools return *)

Lemma returns_only_bind {A B : Type} (R : B -> Prop) (p : prog A)
      (f : A -> prog B) :
  (forall a, returns_only R (f a)) -> returns_only R (prog_bind p f).
Proof.
  intros Hf. induction p as [a | e | args timeout k IH | line k IH]; simpl; auto.
Qed.

Lemma returns_only_catch {A : Type} (R : A -> Prop) (p : prog A)
      (h : exn -> prog A) :
  returns_only R p -> (forall e, returns_only R (h e)) ->
  returns_only R (prog_catch p h).
Proof.
  intros Hp Hh.
  induction p as [a | e | args timeout k IH | line k IH]; simpl in *; auto.
Qed.

Lemma returns_only_run {A : Type} (R : A -> Prop) (p : prog A) :
  returns_only R p ->
  forall world calls a, final (run_prog world calls p) = inr a -> R a.
Proof.
  induction p as [a | e | args timeout k IH | line k IH];
    intros Hp world calls b; simpl in *.
  - intros [= <-]. exact Hp.
  - discriminate.
  - apply IH, Hp.
  - apply IH, Hp.
Qed.

Lemma text_content_one_text_block (text : string) :
  returns_only one_text_block (Ret (text_content text)).
Proof. exists text. reflexivity. Qed.

#[local] Hint Resolve text_content_one_text_block : prog_paths.
#[local] Hint Extern 1 (returns_only _ (bind _ _)) =>
  apply returns_only_bind : prog_paths.
#[local] Hint Extern 1 (returns_only _ (prog_bind _ _)) =>
  apply returns_only_bind : prog_paths.
#[local] Hint Extern 1 (returns_only _ (catch _ _)) =>
  apply returns_only_catch : prog_paths.
#[local] Hint Extern 1 (returns_only _ (if ?b then _ else _)) =>
  destruct b : prog_paths.
#[local] Hint Extern 1
  (returns_only _ (match ?e with KeyError _ => _ | _ => _ end)) =>
  destruct e : prog_paths.
#[local] Hint Extern 1 (returns_only _ (ret (text_content ?text))) =>
  apply (text_content_one_text_block text) : prog_paths.
#[local] Hint Extern 1 (returns_only _ (raise _)) => exact I : prog_paths.

Lemma call_tool_payload (self : IOSSimulatorMCPServer) (params : dict)
      (tool : string) :
  dict_get "name" params VNone = VStr tool ->
  In tool tool_names ->
  returns_only one_text_block (call_tool self (VDict params)).
Proof.
  intros Hname Hin. unfold call_tool.
  cbn [py_get bind ret Monad_prog prog_bind]. rewrite Hname.
  simpl in Hin.
  repeat match type of Hin with
         | _ \/ _ => destruct Hin as [Hin | Hin]
         end;
    try contradiction; subst tool;
    cbn [py_eq_str String.eqb Ascii.eqb Bool.eqb];
    unfold list_devices, boot_device, shutdown_device, install_app,
      launch_app, build_and_run, get_app_status;
    auto 12 with prog_paths.
Qed.

(** X15. Whatever a tool of the catalog returns, for any arguments and
    any behaviour of the command, is a payload of exactly one text block. *)
Theorem call_tool_returns_one_text_block
        (self : IOSSimulatorMCPServer) (params : dict) (tool : string)
        (world : nat -> list value -> subprocess_outcome) (calls : nat)
        (result : value) :
  dict_get "name" params VNone = VStr tool ->
  In tool tool_names ->
  final (run_prog world calls (call_tool self (VDict params))) = inr result ->
  exists text, result = text_content text.
Proof.
  intros Hname Hin.
  apply (returns_only_run one_text_block), (call_tool_payload self params tool);
    assumption.
Qed.

(** ** initialize *)

(** X16. An [initialize] request is answered with the fixed descriptor of
    the server, which carries its version, whatever the params are, even
    when they are not a mapping; no process is spawned. *)
Theorem handle_jsonrpc_request_initialize
        (self : IOSSimulatorMCPServer) (request : dict) :
  dict_get "method" request VNone = VStr "initialize" ->
  handle_jsonrpc_request self (VDict request) =
    Ret (result_response (dict_get "id" request VNone)
           (VDict [("protocolVersion", VStr "2024-11-05");
                   ("capabilities", VDict [("tools", VDict [])]);
                   ("serverInfo",
                    VDict [("name", VStr "ios-simulator-mcp");
                           ("version", VStr (version self))])])).
Proof.
  intros Hmethod. unfold handle_jsonrpc_request.
  cbn [py_get bind ret Monad_prog prog_bind].
  rewrite Hmethod. reflexivity.
Qed.

(** ** The order of the responses *)

Lemma run_bind {A B : Type} (p : prog A) (f : A -> prog B)
      (world : nat -> list value -> subprocess_outcome) (calls : nat) :
  run_prog world calls (prog_bind p f) =
  match final (run_prog world calls p) with
  | inl e =>
      {| printed := printed (run_prog world calls p);
         issued := issued (run_prog world calls p);
         final := inl e |}
  | inr a =>
      {| printed :=
           printed (run_prog world calls p) ++
           printed (run_prog world
                      (calls + length (issued (run_prog world calls p))) (f a));
         issued :=
           issued (run_prog world calls p) ++
           issued (run_prog world
                     (calls + length (issued (run_prog world calls p))) (f a));
         final :=
           final (run_prog world
                    (calls + length (issued (run_prog world calls p))) (f a)) |}
  end.
Proof.
  revert calls.
  induction p as [a | e | args timeout k IH | line k IH]; intros calls; simpl.
  - rewrite Nat.add_0_r. destruct (run_prog world calls (f a)); reflexivity.
  - reflexivity.
  - rewrite IH.
    destruct (final (run_prog world (S calls) (k (world calls args))));
      [reflexivity |].
    rewrite <- Nat.add_succ_comm. reflexivity.
  - rewrite IH.
    destruct (final (run_prog world calls k)); reflexivity.
Qed.

(** X17. The loop handles a line to its end before it reads the next one:
    what a run prints, and the commands it spawns, are those of the first
    line followed by those of the run on the lines after it, in a world
    where the commands of the first line have already been spawned. *)
Theorem serve_in_order
        (server : IOSSimulatorMCPServer) (line : string) (rest : list string)
        (world : nat -> list value -> subprocess_outcome) (calls : nat) :
  line <> "" ->
  py_strip line <> "" ->
  run_prog world calls (serve server (line :: rest)) =
  {| printed :=
       printed (run_prog world calls (serve_line server (py_strip line))) ++
       printed (run_prog world
                  (calls + length (issued (run_prog world calls
                                             (serve_line server (py_strip line)))))
                  (serve server rest));
     issued :=
       issued (run_prog world calls (serve_line server (py_strip line))) ++
       issued (run_prog world
                 (calls + length (issued (run_prog world calls
                                            (serve_line server (py_strip line)))))
                 (serve server rest));
     final :=
       final (run_prog world
                (calls + length (issued (run_prog world calls
                                           (serve_line server (py_strip line)))))
                (serve server rest)) |}.
Proof.
  intros Hline Hstripped.
  apply String.eqb_neq in Hline, Hstripped.
  cbn [serve]. rewrite Hline, Hstripped.
  cbn [bind Monad_prog]. rewrite run_bind.
  destruct (emits_run 1 _ (serve_line_emits server (py_strip line)) world calls)
    as [_ [[] Hfinal]].
  rewrite Hfinal. reflexivity.
Qed.

End MoreProperties.

(** ** The further properties at concrete requests *)

Lemma serve_line_prints_response_witness :
  run_prog (fun _ _ => TimeoutExpired) 0
    (@serve_line SmallRuntime.runtime new_server "{}") =
  {| printed :=
       [SmallRuntime.render false
          (error_response VNone (-32601) "Method not found: None")];
     issued := [];
     final := inr tt |}.
Proof.
  apply (@serve_line_prints_response SmallRuntime.runtime new_server "{}"
           (VDict []) (fun _ _ => TimeoutExpired) 0%nat).
  reflexivity.
Defined.

Lemma serve_not_a_mapping_witness :
  @serve SmallRuntime.runtime new_server ["[]" ++ blank_line] =
  Emit (SmallRuntime.render false
          (error_response VNone (-32603)
             "'list' object has no attribute 'get'"))
       (Ret tt).
Proof.
  apply (@serve_not_a_mapping SmallRuntime.runtime new_server
           ("[]" ++ blank_line) [] (VList [])).
  - intros H; discriminate H.
  - intros H; discriminate H.
  - reflexivity.
  - intros entries H; discriminate H.
Defined.

Lemma serve_decoder_fault_witness :
  @serve SmallRuntime.shallow_runtime new_server ["[[[[]]]]" ++ blank_line] =
  Emit (SmallRuntime.render false
          (error_response VNone (-32603) "maximum recursion depth exceeded"))
       (Ret tt).
Proof.
  apply (@serve_decoder_fault SmallRuntime.shallow_runtime new_server
           ("[[[[]]]]" ++ blank_line) []
           (OtherException "maximum recursion depth exceeded")).
  - intros H; discriminate H.
  - intros H; discriminate H.
  - reflexivity.
  - intros msg H; discriminate H.
Defined.

Lemma handle_jsonrpc_request_tools_call_witness :
  run_prog (fun _ _ => CompletedProcess 1 "" "No devices are booted.") 0
    (@handle_jsonrpc_request SmallRuntime.runtime new_server
       (VDict [("method", VStr "tools/call");
               ("params", VDict [("name", VStr "shutdown_device");
                                 ("arguments",
                                  VDict [("device_id", VStr "booted")])]);
               ("id", VStr "a")])) =
  {| printed := [];
     issued := [([VStr "xcrun"; VStr "simctl"; VStr "shutdown"; VStr "booted"],
                 30)];
     final := inr (result_response (VStr "a")
                     (text_content
                        ("シャットダウン失敗: " ++ "No devices are booted."))) |}.
Proof.
  apply (@handle_jsonrpc_request_tools_call SmallRuntime.runtime new_server
           [("method", VStr "tools/call");
            ("params", VDict [("name", VStr "shutdown_device");
                              ("arguments",
                               VDict [("device_id", VStr "booted")])]);
            ("id", VStr "a")]
           (VDict [("name", VStr "shutdown_device");
                   ("arguments", VDict [("device_id", VStr "booted")])])
           (fun _ _ => CompletedProcess 1 "" "No devices are booted.") 0%nat);
    reflexivity.
Defined.

Lemma handle_jsonrpc_request_params_not_a_mapping_witness :
  @handle_jsonrpc_request SmallRuntime.runtime new_server
    (VDict [("method", VStr "tools/call"); ("params", VNone); ("id", VInt 4)]) =
  Ret (error_response (VInt 4) (-32603)
         "'NoneType' object has no attribute 'get'").
Proof.
  apply (@handle_jsonrpc_request_params_not_a_mapping SmallRuntime.runtime
           new_server
           [("method", VStr "tools/call"); ("params", VNone); ("id", VInt 4)]
           VNone).
  - reflexivity.
  - reflexivity.
  - intros entries H; discriminate H.
Defined.

Lemma handle_jsonrpc_request_unstarted_command_witness :
  exists command,
    run_prog (fun _ _ => RunRaised (OtherException "No such file or directory: 'xcrun'")) 0
      (@handle_jsonrpc_request SmallRuntime.runtime new_server
         (VDict [("method", VStr "tools/call");
                 ("params", VDict [("name", VStr "list_devices")]);
                 ("id", VInt 5)])) =
    {| printed := [];
       issued := [(command, 30)];
       final := inr (error_response (VInt 5) (-32603) "'stderr'") |}.
Proof.
  apply (@handle_jsonrpc_request_unstarted_command SmallRuntime.runtime
           new_server
           [("method", VStr "tools/call");
            ("params", VDict [("name", VStr "list_devices")]);
            ("id", VInt 5)]
           [("name", VStr "list_devices")] [] "list_devices" []
           (fun _ _ => RunRaised (OtherException "No such file or directory: 'xcrun'"))
           0%nat).
  - reflexivity.
  - reflexivity.
  - reflexivity.
  - reflexivity.
  - reflexivity.
  - intros field H. destruct H.
  - intros n args. right. eexists. reflexivity.
Defined.

Lemma get_app_status_bundle_id_not_a_string_witness :
  exists k msg,
    @get_app_status SmallRuntime.runtime new_server (VStr "booted") (VInt 5) =
      SubprocessRun [VStr "xcrun"; VStr "simctl"; VStr "spawn"; VStr "booted";
                     VStr "launchctl"; VStr "list"] 30 k /\
    k (CompletedProcess 0 "" "") = Raise (TypeError msg).
Proof.
  apply (@get_app_status_bundle_id_not_a_string SmallRuntime.runtime
           new_server (VStr "booted") (VInt 5) "" "").
  intros s H; discriminate H.
Defined.

Lemma handle_jsonrpc_request_arguments_not_a_mapping_witness :
  exists msg,
    @call_tool SmallRuntime.runtime new_server
      (VDict [("name", VStr "boot_device"); ("arguments", VList [])]) =
      Raise (TypeError msg) /\
    @handle_jsonrpc_request SmallRuntime.runtime new_server
      (VDict [("method", VStr "tools/call");
              ("params", VDict [("name", VStr "boot_device");
                                ("arguments", VList [])]);
              ("id", VInt 6)]) =
      Ret (error_response (VInt 6) (-32603) msg).
Proof.
  apply (@handle_jsonrpc_request_arguments_not_a_mapping SmallRuntime.runtime
           new_server
           [("method", VStr "tools/call");
            ("params", VDict [("name", VStr "boot_device");
                              ("arguments", VList [])]);
            ("id", VInt 6)]
           [("name", VStr "boot_device"); ("arguments", VList [])]
           (VList []) "boot_device" "device_id" []).
  - reflexivity.
  - reflexivity.
  - reflexivity.
  - reflexivity.
  - intros entries H; discriminate H.
  - reflexivity.
Defined.

Lemma call_tool_returns_one_text_block_witness :
  exists text, text_content "起動成功" = text_content text.
Proof.
  apply (@call_tool_returns_one_text_block SmallRuntime.runtime new_server
           [("name", VStr "boot_device");
            ("arguments", VDict [("device_id", VStr "X")])]
           "boot_device" (fun _ _ => CompletedProcess 0 "" "") 0%nat
           (text_content "起動成功")).
  - reflexivity.
  - simpl. tauto.
  - reflexivity.
Defined.

Lemma handle_jsonrpc_request_initialize_witness :
  @handle_jsonrpc_request SmallRuntime.runtime new_server
    (VDict [("method", VStr "initialize"); ("params", VList []); ("id", VInt 0)]) =
  Ret (result_response (VInt 0)
         (VDict [("protocolVersion", VStr "2024-11-05");
                 ("capabilities", VDict [("tools", VDict [])]);
                 ("serverInfo",
                  VDict [("name", VStr "ios-simulator-mcp");
                         ("version", VStr "1.0.0")])])).
Proof.
  apply (@handle_jsonrpc_request_initialize SmallRuntime.runtime new_server
           [("method", VStr "initialize"); ("params", VList []); ("id", VInt 0)]).
  reflexivity.
Defined.

Lemma serve_in_order_witness :
  run_prog (fun _ _ => TimeoutExpired) 0
    (@serve SmallRuntime.runtime new_server
       ["nonsense" ++ blank_line; "{}" ++ blank_line]) =
  {| printed :=
       [SmallRuntime.render false (error_response VNone (-32700) "Parse error");
        SmallRuntime.render false
          (error_response VNone (-32601) "Method not found: None")];
     issued := [];
     final := inr tt |}.
Proof.
  apply (@serve_in_order SmallRuntime.runtime new_server
           ("nonsense" ++ blank_line) ["{}" ++ blank_line]
           (fun _ _ => TimeoutExpired) 0%nat).
  - intros H; discriminate H.
  - intros H; discriminate H.
Defined.
